(** * pkg/operator/operator.go: the ingress operator's bootstrap sequence

    A shallow embedding of [init], [Client], [New], [Operator.Start] and
    [ensureDefaultClusterIngress].  Everything the file calls in other
    packages (controller-runtime, client-go, the manifest factory, the
    operator controller) is an entry of the record [Externals]; each call
    made by the control thread is recorded, with its arguments and its
    outcome, in a trace of [Event]s. *)

From stdpp Require Import base strings gmap list.

Set Implicit Arguments.
Set Default Proof Using "Type".

(** ** Go errors *)

Module errors.

(** metav1.StatusReason, as far as this file distinguishes them. *)
Inductive StatusReason :=
| StatusReasonUnknown
| StatusReasonAlreadyExists
| StatusReasonNotFound
| StatusReasonInternalError.

(** A non-nil value of Go's [error] interface: either a plain message
    (fmt.Errorf, errors.New) or an API status error carrying a reason. *)
Inductive error :=
| errorString (s : string)
| StatusError (reason : StatusReason) (msg : string).

(** err.Error() *)
Definition Error (e : error) : string :=
  match e with
  | errorString s => s
  | StatusError _ msg => msg
  end.

Definition ReasonForError (e : error) : StatusReason :=
  match e with
  | errorString _ => StatusReasonUnknown
  | StatusError r _ => r
  end.

(** errors.IsAlreadyExists *)
Definition IsAlreadyExists (e : error) : bool :=
  match ReasonForError e with
  | StatusReasonAlreadyExists => true
  | _ => false
  end.

End errors.
Export errors.

(** fmt.Errorf with the format already expanded: [%v] of an error, and
    [%s] of a string, print the text itself. *)
Definition Errorf (msg : string) : error := errorString msg.

(** A Go [(T, error)] result of an external call. *)
Inductive Result (T : Type) :=
| Ok (v : T)
| Err (e : error).
Arguments Ok {T} v.
Arguments Err {T} e.

(** The two components of the Go pair: the value ([None] is nil) and the
    error ([None] is nil). *)
Definition value_of {T} (r : Result T) : option T :=
  match r with Ok v => Some v | Err _ => None end.
Definition err_of {T} (r : Result T) : option error :=
  match r with Ok _ => None | Err e => Some e end.

(** [needle] occurs in [hay] as a substring. *)
Fixpoint contains (hay needle : string) : bool :=
  String.prefix needle hay
  || match hay with
     | EmptyString => false
     | String _ rest => contains rest needle
     end.

(** ** Data of the operator *)

(** The objects handed to [GetInformer] in [New]. *)
Inductive RuntimeObject :=
| AppsV1Deployment   (* &appsv1.Deployment{} *)
| CoreV1Service.     (* &corev1.Service{} *)

(** A ClusterIngress as far as this file reads it: its metadata and an
    opaque body. *)
Record ClusterIngress := {
  ci_Namespace : string;
  ci_Name : string;
  ci_Spec : string;
}.

(** handler.EnqueueRequestForObject, the only handler used. *)
Inductive EventHandler := EnqueueRequestForObject.

(** ** The collaborators

    A call that can block or fail for reasons outside the process (the API
    server, the network, the stop channel being closed) takes the state of
    the world and returns its answer with the world after it. *)

Record Externals := {
  World : Type;            (* the cluster and network, as the calls see it *)
  RestConfig : Type;       (* *rest.Config *)
  OperatorConfig : Type;   (* operatorconfig.Config *)
  config_Namespace : OperatorConfig -> string;
  InstallConfig : Type;    (* *util.InstallConfig *)
  DNSManager : Type;       (* dns.Manager *)
  SchemeT : Type;          (* the value *runtime.Scheme points to *)
  Mapper : Type;           (* meta.RESTMapper *)
  KubeClient : Type;       (* client.Client *)
  Manager : Type;          (* manager.Manager *)
  Controller : Type;       (* controller.Controller *)
  Cache : Type;            (* cache.Cache *)
  Informer : Type;         (* toolscache.SharedIndexInformer *)
  Factory : Type;          (* *manifests.Factory *)

  (* package initialisation *)
  kscheme_Scheme : SchemeT;
  apis_AddToScheme : SchemeT -> SchemeT * option error;
  configv1_Install : SchemeT -> SchemeT * option error;

  (* construction *)
  apiutil_NewDiscoveryRESTMapper : RestConfig -> World -> Result Mapper * World;
  client_New : RestConfig -> option SchemeT -> Mapper -> World -> Result KubeClient * World;
  manifests_NewFactory : OperatorConfig -> Factory;
  manager_New : RestConfig -> string -> option SchemeT -> World -> Result Manager * World;
  operatorcontroller_New :
    Manager -> KubeClient -> string -> Factory -> DNSManager -> World -> Result Controller * World;
  cache_New : RestConfig -> string -> option SchemeT -> Mapper -> World -> Result Cache * World;
  cache_GetInformer : Cache -> RuntimeObject -> World -> Result Informer * World;
  controller_Watch : Controller -> Informer -> EventHandler -> World -> option error * World;
  fmt_v : RuntimeObject -> string;   (* what %v prints for the object *)

  (* start-up *)
  factory_DefaultClusterIngress : Factory -> World -> Result ClusterIngress * World;
  client_Create : KubeClient -> ClusterIngress -> World -> option error * World;
  cache_WaitForCacheSync : Cache -> World -> bool * World;
  manager_Start : Manager -> World -> option error * World;
}.

Section Operator.

Context {X : Externals}.

(** What the control thread does, in order: each call with its arguments
    and its answer.  [EvUpdate] and [EvDelete] stand for client.Update
    and client.Delete, which nothing in this file calls. *)
Inductive Event :=
| EvNewDiscoveryRESTMapper (cfg : RestConfig X) (r : Result (Mapper X))
| EvClientNew (cfg : RestConfig X) (s : option (SchemeT X)) (m : Mapper X)
              (r : Result (KubeClient X))
| EvManagerNew (cfg : RestConfig X) (ns : string) (s : option (SchemeT X))
               (r : Result (Manager X))
| EvControllerNew (m : Manager X) (c : KubeClient X) (ns : string)
                  (r : Result (Controller X))
| EvCacheNew (cfg : RestConfig X) (ns : string) (s : option (SchemeT X))
             (m : Mapper X) (r : Result (Cache X))
| EvGetInformer (c : Cache X) (obj : RuntimeObject) (r : Result (Informer X))
| EvWatch (ctl : Controller X) (i : Informer X) (h : EventHandler) (r : option error)
| EvDefaultClusterIngress (f : Factory X) (r : Result ClusterIngress)
| EvCreate (c : KubeClient X) (ci : ClusterIngress) (r : option error)
| EvUpdate (c : KubeClient X) (ci : ClusterIngress)
| EvDelete (c : KubeClient X) (ci : ClusterIngress)
| EvGoCacheStart (c : Cache X)      (* go func() { cache.Start(stop) }() *)
| EvWaitForCacheSync (c : Cache X) (synced : bool)
| EvManagerStart (m : Manager X) (r : option error)
| EvLog (msg : string).

(** The package variable [scheme] and the world outside the process. *)
Record St := {
  scheme : option (SchemeT X);     (* nil until init has run *)
  world : World X;
}.

(** Computations of the control thread: state in, result, state and the
    events of this computation out. *)
Definition M (A : Type) : Type := St -> A * St * list Event.

Definition ret {A} (a : A) : M A := fun st => (a, st, []).

Definition bind {A B} (m : M A) (k : A -> M B) : M B :=
  fun st =>
    let '(a, st1, t1) := m st in
    let '(b, st2, t2) := k a st1 in
    (b, st2, t1 ++ t2).

(** Read the package variable. *)
Definition get_scheme : M (option (SchemeT X)) :=
  fun st => (scheme st, st, []).

(** An external call: it may change the world, never the package
    variable; [ev] is the event it leaves. *)
Definition call {A} (f : World X -> A * World X) (ev : A -> Event) : M A :=
  fun st =>
    let '(a, w) := f (world st) in
    (a, {| scheme := scheme st; world := w |}, [ev a]).

(** An action with no result (a log line, a goroutine launch). *)
Definition emit (ev : Event) : M unit := fun st => (tt, st, [ev]).

Definition result {A} (r : A * St * list Event) : A := r.1.1.
Definition final {A} (r : A * St * list Event) : St := r.1.2.
Definition trace {A} (r : A * St * list Event) : list Event := r.2.

End Operator.

Arguments Event : clear implicits.
Arguments St : clear implicits.
Arguments M : clear implicits.

Declare Scope go_scope.
Delimit Scope go_scope with go.
Notation "x <- m ;; k" := (bind m (fun x => k))
  (at level 100, m at next level, right associativity) : go_scope.
Notation "m ;;; k" := (bind m (fun _ => k))
  (at level 100, right associativity) : go_scope.

Local Open Scope go_scope.

(** ** The package *)

Section Package.

Context {X : Externals}.

(** What running [init] leaves: the package state, or a panic. *)
Inductive InitOutcome :=
| Initialised (st : St X)
| Panicked (e : error).

(** func init(): [scheme] is pointed at client-go's scheme, then the
    operator's own API types and the config/v1 types are registered in
    it; a failed registration panics. *)
Definition init (w : World X) : InitOutcome :=
  let s0 := kscheme_Scheme X in
  match apis_AddToScheme X s0 with
  | (_, Some err) => Panicked err
  | (s1, None) =>
      match configv1_Install X s1 with
      | (_, Some err) => Panicked err
      | (s2, None) => Initialised {| scheme := Some s2; world := w |}
      end
  end.

(** type Operator struct *)
Record Operator := {
  manifestFactory : Factory X;
  installConfig : InstallConfig X;
  client : KubeClient X;
  manager : Manager X;
  caches : list (Cache X);
}.

(** func Client(kubeConfig): [managerOptions] is used for its
    [MapperProvider] only, which is apiutil.NewDiscoveryRESTMapper. *)
Definition Client (kubeConfig : RestConfig X)
  : M X (Result (KubeClient X)) :=
  r <- call (apiutil_NewDiscoveryRESTMapper X kubeConfig)
            (EvNewDiscoveryRESTMapper kubeConfig) ;;
  match r with
  | Err _ => ret (Err (Errorf "failed to get API Group-Resources"))
  | Ok mapper =>
      sch <- get_scheme ;;
      r <- call (client_New X kubeConfig sch mapper)
                (EvClientNew kubeConfig sch mapper) ;;
      match r with
      | Err err => ret (Err (Errorf ("failed to create kube client: " +:+ Error err)))
      | Ok kubeClient => ret (Ok kubeClient)
      end
  end.

(** The body of the [for _, obj := range] loop of [New]: an informer for
    each object, watched by the operator controller.  What [Watch]
    returns is dropped, as in the source. *)
Fixpoint watchInformers (operatorController : Controller X) (ingressCache : Cache X)
    (objs : list RuntimeObject) : M X (option error) :=
  match objs with
  | [] => ret None
  | obj :: rest =>
      r <- call (cache_GetInformer X ingressCache obj) (EvGetInformer ingressCache obj) ;;
      match r with
      | Err err =>
          ret (Some (Errorf ("failed to create informer for " +:+ fmt_v X obj
                               +:+ ": " +:+ Error err)))
      | Ok informer =>
          call (controller_Watch X operatorController informer EnqueueRequestForObject)
               (EvWatch operatorController informer EnqueueRequestForObject) ;;;
          watchInformers operatorController ingressCache rest
      end
  end.

(** func New(config, installConfig, dnsManager, kubeConfig) *)
Definition New (config : OperatorConfig X) (installConfig : InstallConfig X)
    (dnsManager : DNSManager X) (kubeConfig : RestConfig X)
  : M X (Result Operator) :=
  c <- Client kubeConfig ;;
  match c with
  | Err err => ret (Err (Errorf ("could't create kube client: " +:+ Error err)))
  | Ok kubeClient =>
      let mf := manifests_NewFactory X config in
      sch <- get_scheme ;;
      r <- call (manager_New X kubeConfig (config_Namespace X config) sch)
                (EvManagerNew kubeConfig (config_Namespace X config) sch) ;;
      match r with
      | Err err =>
          ret (Err (Errorf ("failed to create operator manager: " +:+ Error err)))
      | Ok operatorManager =>
          r <- call (operatorcontroller_New X operatorManager kubeClient
                       (config_Namespace X config) mf dnsManager)
                    (EvControllerNew operatorManager kubeClient (config_Namespace X config)) ;;
          match r with
          | Err err =>
              ret (Err (Errorf ("failed to create operator controller: " +:+ Error err)))
          | Ok operatorController =>
              r <- call (apiutil_NewDiscoveryRESTMapper X kubeConfig)
                        (EvNewDiscoveryRESTMapper kubeConfig) ;;
              match r with
              | Err _ => ret (Err (Errorf "failed to get API Group-Resources"))
              | Ok mapper =>
                  sch <- get_scheme ;;
                  r <- call (cache_New X kubeConfig "openshift-ingress" sch mapper)
                            (EvCacheNew kubeConfig "openshift-ingress" sch mapper) ;;
                  match r with
                  | Err err =>
                      ret (Err (Errorf ("failed to create openshift-ingress cache: "
                                          +:+ Error err)))
                  | Ok ingressCache =>
                      e <- watchInformers operatorController ingressCache
                             [AppsV1Deployment; CoreV1Service] ;;
                      match e with
                      | Some err => ret (Err err)
                      | None =>
                          ret (Ok {| manager := operatorManager;
                                     caches := [ingressCache];
                                     manifestFactory := mf;
                                     installConfig := installConfig;
                                     client := kubeClient |})
                      end
                  end
              end
          end
      end
  end.

(** func (o *Operator) ensureDefaultClusterIngress() *)
Definition ensureDefaultClusterIngress (o : Operator) : M X (option error) :=
  r <- call (factory_DefaultClusterIngress X (manifestFactory o))
            (EvDefaultClusterIngress (manifestFactory o)) ;;
  match r with
  | Err err => ret (Some err)
  | Ok ci =>
      err <- call (client_Create X (client o) ci) (EvCreate (client o) ci) ;;
      match err with
      | Some e =>
          if negb (IsAlreadyExists e) then ret (Some e) else ret None
      | None =>
          emit (EvLog ("created default clusteringress " +:+ ci_Namespace ci
                         +:+ "/" +:+ ci_Name ci)) ;;;
          ret None
      end
  end.

(** The [for _, cache := range o.caches] loop of [Start]: the cache is
    started on a goroutine of its own, recorded where it is launched,
    and the control thread then waits for that cache to sync. *)
Fixpoint startCaches (cs : list (Cache X)) : M X (option error) :=
  match cs with
  | [] => ret None
  | cache :: rest =>
      emit (EvGoCacheStart cache) ;;;
      emit (EvLog "waiting for cache to sync") ;;;
      synced <- call (cache_WaitForCacheSync X cache) (EvWaitForCacheSync cache) ;;
      if negb synced then ret (Some (Errorf "failed to sync cache"))
      else
        emit (EvLog "cache synced") ;;;
        startCaches rest
  end.

(** func (o *Operator) Start(stop) *)
Definition Start (o : Operator) : M X (option error) :=
  e <- ensureDefaultClusterIngress o ;;
  match e with
  | Some err =>
      ret (Some (Errorf ("failed to ensure default cluster ingress: " +:+ Error err)))
  | None =>
      e <- startCaches (caches o) ;;
      match e with
      | Some err => ret (Some err)
      | None => call (manager_Start X (manager o)) (EvManagerStart (manager o))
      end
  end.

End Package.

Arguments Operator : clear implicits.
Arguments InitOutcome : clear implicits.

(** ** Reading a trace *)

Section Traces.

Context {X : Externals}.

(** The caches started, in order. *)
Definition started (t : list (Event X)) : list (Cache X) :=
  omap (fun e => match e with EvGoCacheStart c => Some c | _ => None end) t.

(** The sync waits and their answers, in order. *)
Definition waits (t : list (Event X)) : list (Cache X * bool) :=
  omap (fun e => match e with EvWaitForCacheSync c b => Some (c, b) | _ => None end) t.

(** The Create calls issued. *)
Definition creates (t : list (Event X)) : list (KubeClient X * ClusterIngress) :=
  omap (fun e => match e with EvCreate c ci _ => Some (c, ci) | _ => None end) t.

(** The Watch calls issued. *)
Definition watches (t : list (Event X)) : list (Controller X * Informer X) :=
  omap (fun e => match e with EvWatch ctl i _ _ => Some (ctl, i) | _ => None end) t.

(** The informers asked of a cache, with the objects they are for. *)
Definition informers (t : list (Event X)) : list (Cache X * RuntimeObject) :=
  omap (fun e => match e with EvGetInformer c obj _ => Some (c, obj) | _ => None end) t.

(** The caches constructed, with the namespace each is scoped to. *)
Definition caches_made (t : list (Event X)) : list (string * Result (Cache X)) :=
  omap (fun e => match e with EvCacheNew _ ns _ _ r => Some (ns, r) | _ => None end) t.

Definition is_dispatch (e : Event X) : bool :=
  match e with EvManagerStart _ _ => true | _ => false end.

(** manager.Start was called. *)
Definition dispatched (t : list (Event X)) : bool := existsb is_dispatch t.

Definition is_mutation (e : Event X) : bool :=
  match e with EvUpdate _ _ | EvDelete _ _ => true | _ => false end.

(** An Update or a Delete was issued. *)
Definition mutated (t : list (Event X)) : bool := existsb is_mutation t.

(** What one loop round of [Start] leaves for a cache that syncs. *)
Definition synced_round (c : Cache X) : list (Event X) :=
  [EvGoCacheStart c; EvLog "waiting for cache to sync";
   EvWaitForCacheSync c true; EvLog "cache synced"].

(** What the last round leaves when the cache does not sync. *)
Definition failed_round (c : Cache X) : list (Event X) :=
  [EvGoCacheStart c; EvLog "waiting for cache to sync"; EvWaitForCacheSync c false].

(** A construction step whose error [New] or [Client] checks has failed. *)
Definition is_failed_step (e : Event X) : bool :=
  match e with
  | EvNewDiscoveryRESTMapper _ (Err _)
  | EvClientNew _ _ _ (Err _)
  | EvManagerNew _ _ _ (Err _)
  | EvControllerNew _ _ _ (Err _)
  | EvCacheNew _ _ _ _ (Err _)
  | EvGetInformer _ _ (Err _) => true
  | _ => false
  end.

Definition construction_failed (t : list (Event X)) : bool := existsb is_failed_step t.

(** The error behind a failure, for the calls whose error the code
    checks, the REST-mapper discovery apart: an AlreadyExists from Create
    is no failure. *)
Definition cause (e : Event X) : option error :=
  match e with
  | EvClientNew _ _ _ (Err c)
  | EvManagerNew _ _ _ (Err c)
  | EvControllerNew _ _ _ (Err c)
  | EvCacheNew _ _ _ _ (Err c)
  | EvGetInformer _ _ (Err c)
  | EvDefaultClusterIngress _ (Err c)
  | EvManagerStart _ (Some c) => Some c
  | EvCreate _ _ (Some c) => if IsAlreadyExists c then None else Some c
  | _ => None
  end.

(** What [Client] writes in front of the cause. *)
Definition Client_context (e : Event X) : string := "failed to create kube client: ".

(** What [New] has in front of the cause: its own prefix, and for a
    failure inside [Client] the prefix [Client] added as well. *)
Definition New_context (e : Event X) : string :=
  match e with
  | EvClientNew _ _ _ _ => "could't create kube client: failed to create kube client: "
  | EvManagerNew _ _ _ _ => "failed to create operator manager: "
  | EvControllerNew _ _ _ _ => "failed to create operator controller: "
  | EvCacheNew _ _ _ _ _ => "failed to create openshift-ingress cache: "
  | EvGetInformer _ obj _ => "failed to create informer for " +:+ fmt_v X obj +:+ ": "
  | _ => ""
  end.

(** What [Start] writes in front of the cause: nothing for an error of
    manager.Start, which it returns as it is. *)
Definition Start_context (e : Event X) : string :=
  match e with
  | EvDefaultClusterIngress _ _ | EvCreate _ _ _ =>
      "failed to ensure default cluster ingress: "
  | _ => ""
  end.

Definition is_start (e : Event X) : bool :=
  match e with EvGoCacheStart _ => true | _ => false end.

(** Two phases: no cache is started once a sync wait has been made. *)
Fixpoint starts_precede_waits (t : list (Event X)) : bool :=
  match t with
  | [] => true
  | EvWaitForCacheSync _ _ :: t' => negb (existsb is_start t') && starts_precede_waits t'
  | _ :: t' => starts_precede_waits t'
  end.

End Traces.

(** ** The outcomes of the two steps of Start *)

Section Outcomes.

Context {X : Externals}.

(** How the loop over [cs] can end: every cache synced, or the rounds
    stop at the first cache that does not. *)
Inductive rounds (cs : list (Cache X)) : option error -> list (Event X) -> Prop :=
| rounds_synced :
    rounds cs None (flat_map synced_round cs)
| rounds_failed pre c post :
    cs = pre ++ c :: post ->
    rounds cs (Some (Errorf "failed to sync cache"))
           (flat_map synced_round pre ++ failed_round c).

(** The four ways [ensureDefaultClusterIngress] can go, each with the
    answers of the collaborators that lead there. *)
Inductive ensured (o : Operator X) (st : St X)
  : option error -> St X -> list (Event X) -> Prop :=
| ensured_no_manifest e w :
    factory_DefaultClusterIngress X (manifestFactory o) (world st) = (Err e, w) ->
    ensured o st (Some e) {| scheme := scheme st; world := w |}
            [EvDefaultClusterIngress (manifestFactory o) (Err e)]
| ensured_created ci w1 w2 :
    factory_DefaultClusterIngress X (manifestFactory o) (world st) = (Ok ci, w1) ->
    client_Create X (client o) ci w1 = (None, w2) ->
    ensured o st None {| scheme := scheme st; world := w2 |}
            [EvDefaultClusterIngress (manifestFactory o) (Ok ci);
             EvCreate (client o) ci None;
             EvLog ("created default clusteringress " +:+ ci_Namespace ci
                      +:+ "/" +:+ ci_Name ci)]
| ensured_present ci w1 w2 e :
    factory_DefaultClusterIngress X (manifestFactory o) (world st) = (Ok ci, w1) ->
    client_Create X (client o) ci w1 = (Some e, w2) ->
    IsAlreadyExists e = true ->
    ensured o st None {| scheme := scheme st; world := w2 |}
            [EvDefaultClusterIngress (manifestFactory o) (Ok ci);
             EvCreate (client o) ci (Some e)]
| ensured_failed ci w1 w2 e :
    factory_DefaultClusterIngress X (manifestFactory o) (world st) = (Ok ci, w1) ->
    client_Create X (client o) ci w1 = (Some e, w2) ->
    IsAlreadyExists e = false ->
    ensured o st (Some e) {| scheme := scheme st; world := w2 |}
            [EvDefaultClusterIngress (manifestFactory o) (Ok ci);
             EvCreate (client o) ci (Some e)].

End Outcomes.

(** ** A simulated cluster

    An instance of the collaborators to run the code on: handles are plain
    names, construction steps fail as [Faults] says, and the client talks
    to a store of objects. *)

Abbreviation Store := (gmap (string * string) ClusterIngress).

Definition key (ci : ClusterIngress) : string * string := (ci_Namespace ci, ci_Name ci).

(** Modelled from the spec: the create of the remote object store that
    client.Create writes to, whose code is not among the sources; section
    4.2 gives it two outcomes, AlreadyExists when an object of that
    namespace and name is there, success otherwise. *)
Definition store_create (ci : ClusterIngress) (s : Store) : option error * Store :=
  match s !! key ci with
  | Some _ =>
      (Some (StatusError StatusReasonAlreadyExists
               ("clusteringresses " +:+ ci_Name ci +:+ " already exists")), s)
  | None => (None, <[key ci := ci]> s)
  end.

Record Faults := {
  discovery_error : option error;
  client_error : option error;
  manager_error : option error;
  controller_error : option error;
  cache_error : option error;
  informer_error : RuntimeObject -> option error;
  watch_error : option error;
  create_error : option error;      (* the request does not reach the store *)
  stuck : list string;              (* caches that never sync *)
  dispatch_error : option error;
}.

Definition no_faults : Faults := {|
  discovery_error := None; client_error := None; manager_error := None;
  controller_error := None; cache_error := None; informer_error := fun _ => None;
  watch_error := None; create_error := None; stuck := []; dispatch_error := None;
|}.

Definition or_fail {T} (f : option error) (v : T) : Result T :=
  match f with Some e => Err e | None => Ok v end.

Definition cluster (f : Faults) : Externals := {|
  World := Store;
  RestConfig := string;
  OperatorConfig := string;
  config_Namespace := fun ns => ns;
  InstallConfig := unit;
  DNSManager := unit;
  SchemeT := list string;
  Mapper := unit;
  KubeClient := string;
  Manager := string;
  Controller := string;
  Cache := string;
  Informer := string * RuntimeObject;
  Factory := Result ClusterIngress;
  kscheme_Scheme := ["core/v1"; "apps/v1"];
  apis_AddToScheme := fun s => (s ++ ["ingress.openshift.io/v1alpha1"], None);
  configv1_Install := fun s => (s ++ ["config.openshift.io/v1"], None);
  apiutil_NewDiscoveryRESTMapper := fun _ w => (or_fail (discovery_error f) tt, w);
  client_New := fun cfg _ _ w => (or_fail (client_error f) cfg, w);
  manifests_NewFactory := fun ns =>
    Ok {| ci_Namespace := ns; ci_Name := "default"; ci_Spec := "replicas: 1" |};
  manager_New := fun _ ns _ w => (or_fail (manager_error f) ns, w);
  operatorcontroller_New := fun m _ _ _ _ w => (or_fail (controller_error f) m, w);
  cache_New := fun _ ns _ _ w => (or_fail (cache_error f) ns, w);
  cache_GetInformer := fun c obj w => (or_fail (informer_error f obj) (c, obj), w);
  controller_Watch := fun _ _ _ w => (watch_error f, w);
  fmt_v := fun obj =>
    match obj with AppsV1Deployment => "&Deployment{}" | CoreV1Service => "&Service{}" end;
  factory_DefaultClusterIngress := fun mf w => (mf, w);
  client_Create := fun _ ci w =>
    match create_error f with
    | Some e => (Some e, w)
    | None => store_create ci w
    end;
  cache_WaitForCacheSync := fun c w => (negb (bool_decide (c ∈ stuck f)), w);
  manager_Start := fun _ w => (dispatch_error f, w);
|}.

(** The default ClusterIngress of the simulated cluster. *)
Definition default_ci : ClusterIngress :=
  {| ci_Namespace := "openshift-ingress-operator"; ci_Name := "default";
     ci_Spec := "replicas: 1" |}.

(** A default ClusterIngress that the reconciliation controller has
    changed since it was created. *)
Definition scaled_ci : ClusterIngress :=
  {| ci_Namespace := "openshift-ingress-operator"; ci_Name := "default";
     ci_Spec := "replicas: 5" |}.

(** An operator over three caches. *)
Definition three_caches (f : Faults) (mf : Result ClusterIngress) : Operator (cluster f) :=
  @Build_Operator (cluster f) mf tt "kube" "mgr" ["a"; "b"; "c"].

Definition second_stuck : Faults := {|
  discovery_error := None; client_error := None; manager_error := None;
  controller_error := None; cache_error := None; informer_error := fun _ => None;
  watch_error := None; create_error := None; stuck := ["b"]; dispatch_error := None;
|}.

Definition boot (f : Faults) (s : Store) : St (cluster f) :=
  @Build_St (cluster f) (Some ["core/v1"; "apps/v1"]) s.

(** Create is refused by the API server with an internal error. *)
Definition refused : Faults := {|
  discovery_error := None; client_error := None; manager_error := None;
  controller_error := None; cache_error := None; informer_error := fun _ => None;
  watch_error := None;
  create_error := Some (StatusError StatusReasonInternalError "etcdserver: request timed out");
  stuck := []; dispatch_error := None;
|}.

(** The manifest of the default ClusterIngress does not decode. *)
Definition bad_manifest : Result ClusterIngress :=
  Err (errorString "yaml: line 3: mapping values are not allowed in this context").

(** The API server cannot be reached at all. *)
Definition unreachable : Faults := {|
  discovery_error := Some (errorString "dial tcp 10.0.0.1:443: connect: connection refused");
  client_error := None; manager_error := None;
  controller_error := None; cache_error := None; informer_error := fun _ => None;
  watch_error := None; create_error := None; stuck := []; dispatch_error := None;
|}.

(** manager.Start comes back with an error. *)
Definition dispatch_fails : Faults := {|
  discovery_error := None; client_error := None; manager_error := None;
  controller_error := None; cache_error := None; informer_error := fun _ => None;
  watch_error := None; create_error := None; stuck := [];
  dispatch_error := Some (errorString "leader election lost");
|}.

(** ** More readings of a trace, and the outcomes of New *)

Section Construction_outcomes.

Context {X : Externals}.

(** The calls of manager.Start, with what each returned. *)
Definition dispatches (t : list (Event X)) : list (Manager X * option error) :=
  omap (fun e => match e with EvManagerStart m r => Some (m, r) | _ => None end) t.

(** The log lines written. *)
Definition logged (t : list (Event X)) : list string :=
  omap (fun e => match e with EvLog msg => Some msg | _ => None end) t.

(** The Create calls that returned nil. *)
Definition created (t : list (Event X)) : list ClusterIngress :=
  omap (fun e => match e with EvCreate _ ci None => Some ci | _ => None end) t.

(** An event of building the operator: a discovery, a constructor, an
    informer request or a watch. *)
Definition is_construction (e : Event X) : bool :=
  match e with
  | EvNewDiscoveryRESTMapper _ _ | EvClientNew _ _ _ _ | EvManagerNew _ _ _ _
  | EvControllerNew _ _ _ _ | EvCacheNew _ _ _ _ _ | EvGetInformer _ _ _
  | EvWatch _ _ _ _ => true
  | _ => false
  end.

(** An event of running the operator: the default ClusterIngress, a cache
    launched or waited on, the dispatch, a write to the store. *)
Definition is_startup (e : Event X) : bool :=
  match e with
  | EvDefaultClusterIngress _ _ | EvCreate _ _ _ | EvUpdate _ _ | EvDelete _ _
  | EvGoCacheStart _ | EvWaitForCacheSync _ _ | EvManagerStart _ _ => true
  | _ => false
  end.

(** The nine ways a run of [New] can go, with the calls made in each and
    what each call was given and returned. *)
Inductive constructed (config : OperatorConfig X) (ic : InstallConfig X)
    (kubeConfig : RestConfig X) (st : St X)
  : Result (Operator X) -> list (Event X) -> Prop :=
| constructed_no_discovery e :
    constructed config ic kubeConfig st
      (Err (Errorf ("could't create kube client: "
                      +:+ Error (Errorf "failed to get API Group-Resources"))))
      [EvNewDiscoveryRESTMapper kubeConfig (Err e)]
| constructed_no_client m1 e :
    constructed config ic kubeConfig st
      (Err (Errorf ("could't create kube client: "
                      +:+ Error (Errorf ("failed to create kube client: " +:+ Error e)))))
      [EvNewDiscoveryRESTMapper kubeConfig (Ok m1);
       EvClientNew kubeConfig (scheme st) m1 (Err e)]
| constructed_no_manager m1 kc e :
    constructed config ic kubeConfig st
      (Err (Errorf ("failed to create operator manager: " +:+ Error e)))
      [EvNewDiscoveryRESTMapper kubeConfig (Ok m1);
       EvClientNew kubeConfig (scheme st) m1 (Ok kc);
       EvManagerNew kubeConfig (config_Namespace X config) (scheme st) (Err e)]
| constructed_no_controller m1 kc mgr e :
    constructed config ic kubeConfig st
      (Err (Errorf ("failed to create operator controller: " +:+ Error e)))
      [EvNewDiscoveryRESTMapper kubeConfig (Ok m1);
       EvClientNew kubeConfig (scheme st) m1 (Ok kc);
       EvManagerNew kubeConfig (config_Namespace X config) (scheme st) (Ok mgr);
       EvControllerNew mgr kc (config_Namespace X config) (Err e)]
| constructed_no_mapper m1 kc mgr ctl e :
    constructed config ic kubeConfig st
      (Err (Errorf "failed to get API Group-Resources"))
      [EvNewDiscoveryRESTMapper kubeConfig (Ok m1);
       EvClientNew kubeConfig (scheme st) m1 (Ok kc);
       EvManagerNew kubeConfig (config_Namespace X config) (scheme st) (Ok mgr);
       EvControllerNew mgr kc (config_Namespace X config) (Ok ctl);
       EvNewDiscoveryRESTMapper kubeConfig (Err e)]
| constructed_no_cache m1 kc mgr ctl m2 e :
    constructed config ic kubeConfig st
      (Err (Errorf ("failed to create openshift-ingress cache: " +:+ Error e)))
      [EvNewDiscoveryRESTMapper kubeConfig (Ok m1);
       EvClientNew kubeConfig (scheme st) m1 (Ok kc);
       EvManagerNew kubeConfig (config_Namespace X config) (scheme st) (Ok mgr);
       EvControllerNew mgr kc (config_Namespace X config) (Ok ctl);
       EvNewDiscoveryRESTMapper kubeConfig (Ok m2);
       EvCacheNew kubeConfig "openshift-ingress" (scheme st) m2 (Err e)]
| constructed_no_deployment_informer m1 kc mgr ctl m2 c e :
    constructed config ic kubeConfig st
      (Err (Errorf ("failed to create informer for " +:+ fmt_v X AppsV1Deployment
                      +:+ ": " +:+ Error e)))
      [EvNewDiscoveryRESTMapper kubeConfig (Ok m1);
       EvClientNew kubeConfig (scheme st) m1 (Ok kc);
       EvManagerNew kubeConfig (config_Namespace X config) (scheme st) (Ok mgr);
       EvControllerNew mgr kc (config_Namespace X config) (Ok ctl);
       EvNewDiscoveryRESTMapper kubeConfig (Ok m2);
       EvCacheNew kubeConfig "openshift-ingress" (scheme st) m2 (Ok c);
       EvGetInformer c AppsV1Deployment (Err e)]
| constructed_no_service_informer m1 kc mgr ctl m2 c i1 r1 e :
    constructed config ic kubeConfig st
      (Err (Errorf ("failed to create informer for " +:+ fmt_v X CoreV1Service
                      +:+ ": " +:+ Error e)))
      [EvNewDiscoveryRESTMapper kubeConfig (Ok m1);
       EvClientNew kubeConfig (scheme st) m1 (Ok kc);
       EvManagerNew kubeConfig (config_Namespace X config) (scheme st) (Ok mgr);
       EvControllerNew mgr kc (config_Namespace X config) (Ok ctl);
       EvNewDiscoveryRESTMapper kubeConfig (Ok m2);
       EvCacheNew kubeConfig "openshift-ingress" (scheme st) m2 (Ok c);
       EvGetInformer c AppsV1Deployment (Ok i1);
       EvWatch ctl i1 EnqueueRequestForObject r1;
       EvGetInformer c CoreV1Service (Err e)]
| constructed_all m1 kc mgr ctl m2 c i1 r1 i2 r2 :
    constructed config ic kubeConfig st
      (Ok {| manifestFactory := manifests_NewFactory X config;
             installConfig := ic;
             client := kc;
             manager := mgr;
             caches := [c] |})
      [EvNewDiscoveryRESTMapper kubeConfig (Ok m1);
       EvClientNew kubeConfig (scheme st) m1 (Ok kc);
       EvManagerNew kubeConfig (config_Namespace X config) (scheme st) (Ok mgr);
       EvControllerNew mgr kc (config_Namespace X config) (Ok ctl);
       EvNewDiscoveryRESTMapper kubeConfig (Ok m2);
       EvCacheNew kubeConfig "openshift-ingress" (scheme st) m2 (Ok c);
       EvGetInformer c AppsV1Deployment (Ok i1);
       EvWatch ctl i1 EnqueueRequestForObject r1;
       EvGetInformer c CoreV1Service (Ok i2);
       EvWatch ctl i2 EnqueueRequestForObject r2].

End Construction_outcomes.

(** ** More simulated collaborators *)

(** No informer can be had for Service. *)
Definition no_service_informer : Faults := {|
  discovery_error := None; client_error := None; manager_error := None;
  controller_error := None; cache_error := None;
  informer_error := fun obj =>
    match obj with
    | CoreV1Service => Some (errorString "no matches for kind Service in version v1")
    | AppsV1Deployment => None
    end;
  watch_error := None; create_error := None; stuck := []; dispatch_error := None;
|}.

(** Every Watch call comes back with an error. *)
Definition watch_fails : Faults := {|
  discovery_error := None; client_error := None; manager_error := None;
  controller_error := None; cache_error := None; informer_error := fun _ => None;
  watch_error := Some (errorString "must specify Informer.Informer");
  create_error := None; stuck := []; dispatch_error := None;
|}.

(** Collaborators whose world counts the discoveries made so far: the
    [fail_at]-th discovery (from 0) fails, every other call succeeds. *)
Definition counting (fail_at : nat) : Externals := {|
  World := nat;
  RestConfig := string;
  OperatorConfig := string;
  config_Namespace := fun ns => ns;
  InstallConfig := unit;
  DNSManager := unit;
  SchemeT := list string;
  Mapper := nat;
  KubeClient := string;
  Manager := string;
  Controller := string;
  Cache := string;
  Informer := string * RuntimeObject;
  Factory := Result ClusterIngress;
  kscheme_Scheme := ["core/v1"; "apps/v1"];
  apis_AddToScheme := fun s => (s ++ ["ingress.openshift.io/v1alpha1"], None);
  configv1_Install := fun s => (s ++ ["config.openshift.io/v1"], None);
  apiutil_NewDiscoveryRESTMapper := fun _ n =>
    (if Nat.eqb n fail_at then Err (errorString "the server is currently unable to handle the request")
     else Ok n, S n);
  client_New := fun cfg _ _ n => (Ok cfg, n);
  manifests_NewFactory := fun ns =>
    Ok {| ci_Namespace := ns; ci_Name := "default"; ci_Spec := "replicas: 1" |};
  manager_New := fun _ ns _ n => (Ok ns, n);
  operatorcontroller_New := fun m _ _ _ _ n => (Ok m, n);
  cache_New := fun _ ns _ _ n => (Ok ns, n);
  cache_GetInformer := fun c obj n => (Ok (c, obj), n);
  controller_Watch := fun _ _ _ n => (None, n);
  fmt_v := fun obj =>
    match obj with AppsV1Deployment => "&Deployment{}" | CoreV1Service => "&Service{}" end;
  factory_DefaultClusterIngress := fun mf n => (mf, n);
  client_Create := fun _ _ n => (None, n);
  cache_WaitForCacheSync := fun _ n => (true, n);
  manager_Start := fun _ n => (None, n);
|}.

(** ** Tactics *)

(** Follow a run of straight-line code: case on the answer of each call
    in turn. *)
Ltac follow :=
  repeat (cbn [result final trace fst snd world scheme] in *; simplify_eq;
          try case_match).

Ltac unfold_run :=
  unfold New, Client, watchInformers, bind, call, emit, ret, get_scheme.

(** Split a membership in an explicit trace into its cases. *)
Ltac pick_event H :=
  repeat first
    [ apply elem_of_nil in H; destruct H
    | apply elem_of_cons in H as [->|H] ].

(** Find an event in an explicit trace: one case for each place where it
    can be. *)
Ltac find_event H :=
  repeat first
    [ apply elem_of_nil in H; destruct H
    | let E := fresh "E" in apply elem_of_cons in H as [E|H]; [simplify_eq|] ].

(** ** Runs of the monad *)

Section Runs.

Context {X : Externals}.

Lemma bind_run {A B} (m : M X A) (k : A -> M X B) (st : St X) :
  bind m k st =
    (result (k (result (m st)) (final (m st))),
     final (k (result (m st)) (final (m st))),
     trace (m st) ++ trace (k (result (m st)) (final (m st)))).
Proof.
  unfold bind, result, final, trace.
  destruct (m st) as [[a st1] t1]; simpl.
  by destruct (k a st1) as [[b st2] t2].
Qed.

Lemma result_bind {A B} (m : M X A) (k : A -> M X B) st :
  result (bind m k st) = result (k (result (m st)) (final (m st))).
Proof. by rewrite bind_run. Qed.

Lemma final_bind {A B} (m : M X A) (k : A -> M X B) st :
  final (bind m k st) = final (k (result (m st)) (final (m st))).
Proof. by rewrite bind_run. Qed.

Lemma trace_bind {A B} (m : M X A) (k : A -> M X B) st :
  trace (bind m k st) = trace (m st) ++ trace (k (result (m st)) (final (m st))).
Proof. by rewrite bind_run. Qed.

(** *** The cache loop *)

Lemma startCaches_cons (c : Cache X) (cs : list (Cache X)) (st : St X) :
  startCaches (c :: cs) st =
    let '(synced, w) := cache_WaitForCacheSync X c (world st) in
    let st1 := {| scheme := scheme st; world := w |} in
    if synced then
      let r := startCaches cs st1 in
      (result r, final r, synced_round c ++ trace r)
    else (Some (Errorf "failed to sync cache"), st1, failed_round c).
Proof.
  cbn [startCaches]. unfold bind, emit, call, ret, result, final, trace.
  destruct (cache_WaitForCacheSync X c (world st)) as [[|] w]; cbn; [|done].
  by destruct (startCaches cs _) as [[e st2] t].
Qed.

Lemma startCaches_rounds (cs : list (Cache X)) (st : St X) :
  rounds cs (result (startCaches cs st)) (trace (startCaches cs st)).
Proof.
  revert st; induction cs as [|c cs IH]; intros st; [constructor|].
  rewrite startCaches_cons.
  destruct (cache_WaitForCacheSync X c (world st)) as [[|] w]; cbv zeta.
  - match goal with |- context [startCaches cs ?s] => specialize (IH s) end.
    unfold result at 1, trace at 1; cbn [fst snd].
    inversion IH as [E1 E2|pre c' post -> E1 E2].
    + apply (rounds_synced (c :: cs)).
    + apply (rounds_failed (c :: pre) c' post eq_refl).
  - apply (rounds_failed [] c cs eq_refl).
Qed.

Lemma startCaches_scheme (cs : list (Cache X)) (st : St X) :
  scheme (final (startCaches cs st)) = scheme st.
Proof.
  revert st; induction cs as [|c cs IH]; intros st; [done|].
  rewrite startCaches_cons.
  destruct (cache_WaitForCacheSync X c (world st)) as [[|] w]; cbv zeta; [|done].
  unfold final at 1; cbn [fst snd]. by rewrite IH.
Qed.

(** *** The ensure step *)

Lemma ensure_ensured (o : Operator X) (st : St X) :
  ensured o st (result (ensureDefaultClusterIngress o st))
          (final (ensureDefaultClusterIngress o st))
          (trace (ensureDefaultClusterIngress o st)).
Proof.
  unfold ensureDefaultClusterIngress, bind, call, emit, ret, result, final, trace.
  destruct (factory_DefaultClusterIngress X (manifestFactory o) (world st))
    as [[ci|e] w1] eqn:Hf; cbn; [|by constructor].
  destruct (client_Create X (client o) ci w1) as [[e|] w2] eqn:Hc; cbn.
  - destruct (IsAlreadyExists e) eqn:Hae; cbn.
    + by eapply ensured_present.
    + by eapply ensured_failed.
  - by eapply ensured_created.
Qed.

Lemma ensured_scheme (o : Operator X) (st : St X) e st' t :
  ensured o st e st' t -> scheme st' = scheme st.
Proof. by destruct 1. Qed.

(** *** Start, step by step *)

Lemma Start_run (o : Operator X) (st : St X) :
  Start o st =
    let r1 := ensureDefaultClusterIngress o st in
    match result r1 with
    | Some err =>
        (Some (Errorf ("failed to ensure default cluster ingress: " +:+ Error err)),
         final r1, trace r1)
    | None =>
        let r2 := startCaches (caches o) (final r1) in
        match result r2 with
        | Some err => (Some err, final r2, trace r1 ++ trace r2)
        | None =>
            let '(e, w) := manager_Start X (manager o) (world (final r2)) in
            (e, {| scheme := scheme (final r2); world := w |},
             trace r1 ++ trace r2 ++ [EvManagerStart (manager o) e])
        end
    end.
Proof.
  unfold Start, bind, call, ret, result, final, trace.
  destruct (ensureDefaultClusterIngress o st) as [[[err|] st1] t1]; cbn.
  - by rewrite app_nil_r.
  - destruct (startCaches (caches o) st1) as [[[err|] st2] t2]; cbn.
    + by rewrite app_nil_r.
    + by destruct (manager_Start X (manager o) (world st2)) as [e w].
Qed.

(** *** Reading the traces of the loop *)

Lemma started_synced (cs : list (Cache X)) :
  started (flat_map synced_round cs) = cs.
Proof. induction cs as [|c cs IH]; [done|]. cbn. by f_equal. Qed.

Lemma waits_synced (cs : list (Cache X)) :
  waits (flat_map synced_round cs) = (fun c => (c, true)) <$> cs.
Proof. induction cs as [|c cs IH]; [done|]. cbn. by f_equal. Qed.

Lemma dispatched_synced (cs : list (Cache X)) :
  dispatched (flat_map synced_round cs) = false.
Proof. by induction cs. Qed.

Lemma creates_synced (cs : list (Cache X)) :
  creates (flat_map synced_round cs) = [].
Proof. by induction cs. Qed.

Lemma mutated_synced (cs : list (Cache X)) :
  mutated (flat_map synced_round cs) = false.
Proof. by induction cs. Qed.

Lemma dispatched_app (t1 t2 : list (Event X)) :
  dispatched (t1 ++ t2) = dispatched t1 || dispatched t2.
Proof. apply existsb_app. Qed.

Lemma mutated_app (t1 t2 : list (Event X)) :
  mutated (t1 ++ t2) = mutated t1 || mutated t2.
Proof. apply existsb_app. Qed.

Lemma started_app (t1 t2 : list (Event X)) :
  started (t1 ++ t2) = started t1 ++ started t2.
Proof. apply omap_app. Qed.

Lemma waits_app (t1 t2 : list (Event X)) :
  waits (t1 ++ t2) = waits t1 ++ waits t2.
Proof. apply omap_app. Qed.

Lemma creates_app (t1 t2 : list (Event X)) :
  creates (t1 ++ t2) = creates t1 ++ creates t2.
Proof. apply omap_app. Qed.

(** The ensure step starts no cache, waits for none and dispatches nothing. *)
Lemma ensured_quiet (o : Operator X) (st : St X) e st' t :
  ensured o st e st' t ->
  started t = [] /\ waits t = [] /\ dispatched t = false /\ mutated t = false.
Proof. by destruct 1. Qed.

(** No wait in a list of synced rounds answers false. *)
Lemma synced_waits_true (cs : list (Cache X)) i c b :
  ((fun c => (c, true)) <$> cs) !! i = Some (c, b) -> b = true /\ cs !! i = Some c.
Proof.
  rewrite list_lookup_fmap. destruct (cs !! i); naive_solver.
Qed.

End Runs.

(** ** The sync barrier *)

Section Barrier.

Context {X : Externals}.

(** What [Start] leaves once the ensure step has gone through: the
    rounds of the loop, then the dispatch if every cache synced. *)
Lemma Start_after_ensure (o : Operator X) (st : St X) :
  result (ensureDefaultClusterIngress o st) = None ->
  (exists e,
      result (Start o st) = e /\
      trace (Start o st) =
        trace (ensureDefaultClusterIngress o st)
          ++ flat_map synced_round (caches o) ++ [EvManagerStart (manager o) e])
  \/ (exists pre c post,
        caches o = pre ++ c :: post /\
        result (Start o st) = Some (Errorf "failed to sync cache") /\
        trace (Start o st) =
          trace (ensureDefaultClusterIngress o st)
            ++ flat_map synced_round pre ++ failed_round c).
Proof.
  intros He. rewrite Start_run; cbv zeta. rewrite He.
  pose proof (startCaches_rounds (caches o)
                (final (ensureDefaultClusterIngress o st))) as Hr.
  inversion Hr as [E1 E2|pre c post Hcs E1 E2].
  - left. destruct (manager_Start X (manager o) _) as [e w]. by exists e.
  - right. by exists pre, c, post.
Qed.

Lemma Start_ensure_failed (o : Operator X) (st : St X) err :
  result (ensureDefaultClusterIngress o st) = Some err ->
  result (Start o st)
    = Some (Errorf ("failed to ensure default cluster ingress: " +:+ Error err))
  /\ trace (Start o st) = trace (ensureDefaultClusterIngress o st).
Proof. intros He. rewrite Start_run; cbv zeta. by rewrite He. Qed.

(** C1.  manager.Start is reached only after every cache of the
    operator's list has answered its sync wait with true, in the order of
    the list; and as soon as one wait answers false, Start returns the
    error "failed to sync cache" and manager.Start is not called,
    whatever the other caches would answer. *)
Theorem Start_sync_barrier (o : Operator X) (st : St X) :
  (dispatched (trace (Start o st)) = true ->
   waits (trace (Start o st)) = (fun c => (c, true)) <$> caches o)
  /\ (forall c, (c, false) ∈ waits (trace (Start o st)) ->
        result (Start o st) = Some (Errorf "failed to sync cache")
        /\ dispatched (trace (Start o st)) = false).
Proof.
  pose proof (ensure_ensured o st) as Hens.
  destruct (ensured_quiet Hens) as (Hs & Hw & Hd & _).
  destruct (result (ensureDefaultClusterIngress o st)) as [err|] eqn:He.
  - destruct (Start_ensure_failed o st He) as [_ ->].
    rewrite Hw, Hd. split; [done|]. intros c Hc. by apply elem_of_nil in Hc.
  - destruct (Start_after_ensure o st He)
      as [(e & _ & ->)|(pre & c' & post & Hcs & Hres & ->)].
    + rewrite !waits_app, !dispatched_app, Hw, Hd, waits_synced. cbn.
      rewrite app_nil_r. split; [done|].
      intros c Hc. apply list_elem_of_fmap in Hc as (c0 & Hc0 & _). done.
    + rewrite !dispatched_app, Hd, dispatched_synced. cbn.
      split; [done|]. by intros c _.
Qed.

End Barrier.

(** Three caches, the second of which never syncs: nothing is dispatched. *)
Lemma Start_sync_barrier_witness :
  ("b", false) ∈ waits (trace (Start (three_caches second_stuck (Ok default_ci))
                                      (boot second_stuck ∅)))
  /\ result (Start (three_caches second_stuck (Ok default_ci)) (boot second_stuck ∅))
     = Some (Errorf "failed to sync cache")
  /\ dispatched (trace (Start (three_caches second_stuck (Ok default_ci))
                               (boot second_stuck ∅))) = false.
Proof.
  assert (("b", false) ∈ waits (trace (Start (three_caches second_stuck (Ok default_ci))
                                             (boot second_stuck ∅)))) as H.
  { apply list_elem_of_lookup. exists 1. reflexivity. }
  split; [exact H|].
  exact (proj2 (Start_sync_barrier (three_caches second_stuck (Ok default_ci))
                  (boot second_stuck ∅)) "b" H).
Defined.

(** ** The order of start-up *)

Section Phases.

Context {X : Externals}.

(** C4, as amended.  Start first completes the ensure step, which
    touches no cache; then it goes through the caches in the order of the
    list, launching each cache and at once waiting for that same cache to
    sync, so that a cache is launched only after the caches before it
    have synced; and it calls manager.Start only after the last cache has
    synced.  The three shapes a run can have are: the ensure step fails;
    every round succeeds and the dispatch follows; the rounds stop at the
    first cache that does not sync. *)
Theorem Start_phases (o : Operator X) (st : St X) :
  (started (trace (ensureDefaultClusterIngress o st)) = []
   /\ waits (trace (ensureDefaultClusterIngress o st)) = []
   /\ dispatched (trace (ensureDefaultClusterIngress o st)) = false)
  /\ ((exists err,
         result (ensureDefaultClusterIngress o st) = Some err
         /\ result (Start o st)
            = Some (Errorf ("failed to ensure default cluster ingress: " +:+ Error err))
         /\ trace (Start o st) = trace (ensureDefaultClusterIngress o st))
      \/ (result (ensureDefaultClusterIngress o st) = None
          /\ exists e,
              result (Start o st) = e
              /\ trace (Start o st) =
                   trace (ensureDefaultClusterIngress o st)
                     ++ flat_map synced_round (caches o)
                     ++ [EvManagerStart (manager o) e])
      \/ (result (ensureDefaultClusterIngress o st) = None
          /\ exists pre c post,
              caches o = pre ++ c :: post
              /\ result (Start o st) = Some (Errorf "failed to sync cache")
              /\ trace (Start o st) =
                   trace (ensureDefaultClusterIngress o st)
                     ++ flat_map synced_round pre ++ failed_round c)).
Proof.
  split.
  { destruct (ensured_quiet (ensure_ensured o st)) as (? & ? & ? & _). done. }
  destruct (result (ensureDefaultClusterIngress o st)) as [err|] eqn:He.
  - left. exists err. split; [done|]. by apply Start_ensure_failed.
  - right. destruct (Start_after_ensure o st He) as [H|H]; [left|right]; done.
Qed.

(** C10.  When the i-th sync wait of a run answers false, it is the wait
    on the i-th cache of the list; Start returns "failed to sync cache"
    with that wait as its last event, and the caches launched and the
    caches waited on are exactly the first i+1 of the list: none after
    position i is touched. *)
Theorem sync_failure_truncates (o : Operator X) (st : St X) (i : nat) (c : Cache X) :
  waits (trace (Start o st)) !! i = Some (c, false) ->
  caches o !! i = Some c
  /\ result (Start o st) = Some (Errorf "failed to sync cache")
  /\ started (trace (Start o st)) = take (S i) (caches o)
  /\ (fst <$> waits (trace (Start o st))) = take (S i) (caches o)
  /\ last (trace (Start o st)) = Some (EvWaitForCacheSync c false)
  /\ dispatched (trace (Start o st)) = false.
Proof.
  intros Hi.
  destruct (ensured_quiet (ensure_ensured o st)) as (Hs & Hw & Hd & _).
  destruct (result (ensureDefaultClusterIngress o st)) as [err|] eqn:He.
  { destruct (Start_ensure_failed o st He) as [_ Ht].
    rewrite Ht, Hw in Hi. done. }
  destruct (Start_after_ensure o st He)
    as [(e & _ & Ht)|(pre & c' & post & Hcs & Hres & Ht)];
    rewrite Ht in Hi |- *.
  - rewrite !waits_app, Hw, waits_synced in Hi. cbn in Hi.
    rewrite app_nil_r in Hi. by apply synced_waits_true in Hi as [? _].
  - rewrite !waits_app, Hw, waits_synced in Hi. cbn in Hi.
    assert (i = length pre /\ c' = c) as [-> ->].
    { destruct (decide (i < length pre)) as [Hlt|Hge].
      - rewrite lookup_app_l in Hi by by rewrite length_fmap.
        by apply synced_waits_true in Hi as [? _].
      - rewrite lookup_app_r in Hi by (rewrite length_fmap; lia).
        rewrite length_fmap in Hi.
        destruct (i - length pre) as [|k] eqn:Hk; [|done].
        cbn in Hi. split; [lia|congruence]. }
    assert (take (S (length pre)) (caches o) = pre ++ [c]) as Htake.
    { rewrite Hcs, cons_middle, app_assoc, take_app_length'; [done|].
      rewrite length_app; cbn; lia. }
    rewrite Htake, Hcs.
    rewrite !started_app, !waits_app, !dispatched_app, Hs, Hw, Hd,
      started_synced, waits_synced, dispatched_synced. cbn.
    repeat split.
    + by rewrite list_lookup_middle.
    + done.
    + rewrite fmap_app, <- list_fmap_compose. cbn. by rewrite list_fmap_id.
    + rewrite !app_assoc. unfold failed_round.
      change [EvGoCacheStart c; EvLog "waiting for cache to sync";
              EvWaitForCacheSync c false]
        with ([EvGoCacheStart c; EvLog "waiting for cache to sync"]
                ++ [EvWaitForCacheSync c false]).
      rewrite app_assoc. apply last_snoc.
Qed.

End Phases.

(** Three caches that all sync: the wait on the first comes before the
    launch of the second, so the run is not in two phases. *)
Lemma Start_phases_counterexample :
  result (Start (three_caches no_faults (Ok default_ci)) (boot no_faults ∅)) = None
  /\ dispatched (trace (Start (three_caches no_faults (Ok default_ci))
                               (boot no_faults ∅))) = true
  /\ take 5 (drop 3 (trace (Start (three_caches no_faults (Ok default_ci))
                                   (boot no_faults ∅))))
     = [EvGoCacheStart ("a" : Cache (cluster no_faults));
        EvLog "waiting for cache to sync";
        EvWaitForCacheSync ("a" : Cache (cluster no_faults)) true;
        EvLog "cache synced";
        EvGoCacheStart ("b" : Cache (cluster no_faults))]
  /\ starts_precede_waits (trace (Start (three_caches no_faults (Ok default_ci))
                                        (boot no_faults ∅))) = false.
Proof. repeat split; reflexivity. Qed.

(** The second of three caches does not sync: the third is never touched. *)
Lemma sync_failure_truncates_witness :
  waits (trace (Start (three_caches second_stuck (Ok default_ci))
                      (boot second_stuck ∅))) !! 1 = Some ("b", false)
  /\ started (trace (Start (three_caches second_stuck (Ok default_ci))
                            (boot second_stuck ∅))) = ["a"; "b"].
Proof.
  assert (waits (trace (Start (three_caches second_stuck (Ok default_ci))
                              (boot second_stuck ∅))) !! 1 = Some ("b", false)) as H
    by reflexivity.
  split; [exact H|].
  exact (proj1 (proj2 (proj2 (sync_failure_truncates
                 (three_caches second_stuck (Ok default_ci))
                 (boot second_stuck ∅) 1 H)))).
Defined.

(** ** The ensure step *)

Section Ensure.

Context {X : Externals}.

(** C2.  Once the manifest factory has produced the object, the ensure
    step returns nil when Create returns nil or an AlreadyExists error,
    and returns Create's error otherwise; and whenever the ensure step
    returns an error, Start returns that error behind the prefix "failed
    to ensure default cluster ingress: " having launched no cache, waited
    on none and not called manager.Start. *)
Theorem ensure_tolerates_AlreadyExists (o : Operator X) (st : St X) :
  (forall ci w1 r w2,
      factory_DefaultClusterIngress X (manifestFactory o) (world st) = (Ok ci, w1) ->
      client_Create X (client o) ci w1 = (r, w2) ->
      result (ensureDefaultClusterIngress o st)
      = match r with
        | None => None
        | Some e => if IsAlreadyExists e then None else Some e
        end)
  /\ (forall err,
        result (ensureDefaultClusterIngress o st) = Some err ->
        result (Start o st)
        = Some (Errorf ("failed to ensure default cluster ingress: " +:+ Error err))
        /\ started (trace (Start o st)) = []
        /\ waits (trace (Start o st)) = []
        /\ dispatched (trace (Start o st)) = false).
Proof.
  pose proof (ensure_ensured o st) as Hens. split.
  - intros ci w1 r w2 Hf Hc.
    inversion Hens as [e w Hf' E|ci' w1' w2' Hf' Hc' E|ci' w1' w2' e Hf' Hc' Hae E
                      |ci' w1' w2' e Hf' Hc' Hae E];
      rewrite Hf in Hf'; simplify_eq; try (rewrite Hc in Hc'; simplify_eq); try done.
    + by rewrite Hae.
    + by rewrite Hae.
  - intros err He.
    destruct (Start_ensure_failed o st He) as [-> ->].
    destruct (ensured_quiet Hens) as (? & ? & ? & _). done.
Qed.

End Ensure.

(** A Create that fails with an error other than AlreadyExists aborts Start. *)
Lemma ensure_tolerates_AlreadyExists_witness :
  result (ensureDefaultClusterIngress (three_caches refused (Ok default_ci))
            (boot refused ∅))
  = Some (StatusError StatusReasonInternalError "etcdserver: request timed out")
  /\ result (Start (three_caches refused (Ok default_ci)) (boot refused ∅))
     = Some (Errorf ("failed to ensure default cluster ingress: "
                       +:+ "etcdserver: request timed out"))
  /\ started (trace (Start (three_caches refused (Ok default_ci)) (boot refused ∅))) = []
  /\ waits (trace (Start (three_caches refused (Ok default_ci)) (boot refused ∅))) = []
  /\ dispatched (trace (Start (three_caches refused (Ok default_ci)) (boot refused ∅)))
     = false.
Proof.
  pose proof (ensure_tolerates_AlreadyExists
                (three_caches refused (Ok default_ci)) (boot refused ∅)) as [H1 H2].
  assert (result (ensureDefaultClusterIngress (three_caches refused (Ok default_ci))
                    (boot refused ∅))
          = Some (StatusError StatusReasonInternalError "etcdserver: request timed out"))
    as He by exact (H1 default_ci ∅ _ ∅ eq_refl eq_refl).
  split; [exact He|]. exact (H2 _ He).
Defined.

(** ** The default ClusterIngress *)

Section Creates.

Context {X : Externals}.

Lemma creates_Start (o : Operator X) (st : St X) :
  creates (trace (Start o st)) = creates (trace (ensureDefaultClusterIngress o st))
  /\ mutated (trace (Start o st)) = false.
Proof.
  destruct (ensured_quiet (ensure_ensured o st)) as (_ & _ & _ & Hm).
  destruct (result (ensureDefaultClusterIngress o st)) as [err|] eqn:He.
  { by destruct (Start_ensure_failed o st He) as [_ ->]. }
  destruct (Start_after_ensure o st He)
    as [(e & _ & ->)|(pre & c & post & _ & _ & ->)];
    rewrite !creates_app, !mutated_app, creates_synced, mutated_synced, Hm;
    cbn; by rewrite app_nil_r.
Qed.

(** C8, as amended.  A run of Start issues at most one Create, and no
    Update and no Delete; the Create is issued, once and for the object
    the manifest factory returned, exactly when the factory returned one,
    and not at all when the factory failed. *)
Theorem Start_creates_at_most_once (o : Operator X) (st : St X) :
  length (creates (trace (Start o st))) <= 1
  /\ mutated (trace (Start o st)) = false
  /\ creates (trace (Start o st))
     = match (factory_DefaultClusterIngress X (manifestFactory o) (world st)).1 with
       | Ok ci => [(client o, ci)]
       | Err _ => []
       end.
Proof.
  destruct (creates_Start o st) as [-> ->].
  pose proof (ensure_ensured o st) as Hens.
  inversion Hens as [e w Hf E|ci w1 w2 Hf Hc E|ci w1 w2 e Hf Hc Hae E
                    |ci w1 w2 e Hf Hc Hae E];
    rewrite Hf; cbn; auto.
Qed.

End Creates.

(** A run of Start that issues no Create at all. *)
Lemma Start_creates_counterexample :
  result (Start (three_caches no_faults bad_manifest) (boot no_faults ∅))
  = Some (Errorf ("failed to ensure default cluster ingress: "
                    +:+ "yaml: line 3: mapping values are not allowed in this context"))
  /\ creates (trace (Start (three_caches no_faults bad_manifest) (boot no_faults ∅))) = []
  /\ length (creates (trace (Start (three_caches no_faults bad_manifest)
                                   (boot no_faults ∅)))) ≠ 1.
Proof. repeat split; [reflexivity..|]. cbn. discriminate. Qed.

(** ** Idempotence against the store *)

Section Idempotent.

Lemma filter_key_singleton (s : Store) (k : string * string) (v : ClusterIngress) :
  s !! k = Some v -> filter (fun kv => kv.1 = k) s = {[k := v]}.
Proof.
  intros Hk. apply map_eq; intros k'.
  destruct (decide (k' = k)) as [->|Hne].
  - rewrite lookup_singleton_eq. by apply map_lookup_filter_Some.
  - rewrite lookup_singleton_ne by done.
    apply map_lookup_filter_None. right. intros x _. done.
Qed.

(** One run of the ensure step against the store. *)
Lemma ensure_on_store (f : Faults) (o : Operator (cluster f))
    (sch : option (list string)) (s : Store) (ci : ClusterIngress) :
  create_error f = None ->
  manifestFactory o = Ok ci ->
  result (ensureDefaultClusterIngress o (@Build_St (cluster f) sch s)) = None
  /\ world (final (ensureDefaultClusterIngress o (@Build_St (cluster f) sch s)))
     = match s !! key ci with Some _ => s | None => <[key ci := ci]> s end
  /\ scheme (final (ensureDefaultClusterIngress o (@Build_St (cluster f) sch s))) = sch
  /\ creates (trace (ensureDefaultClusterIngress o (@Build_St (cluster f) sch s)))
     = [(client o, ci)]
  /\ (is_Some (s !! key ci) ->
      exists e, IsAlreadyExists e = true
        /\ trace (ensureDefaultClusterIngress o (@Build_St (cluster f) sch s))
           = [EvDefaultClusterIngress (manifestFactory o) (Ok ci);
              EvCreate (client o) ci (Some e)]).
Proof.
  intros Hce Hmf.
  unfold ensureDefaultClusterIngress, bind, call, emit, ret, result, final, trace.
  cbn. rewrite Hmf, Hce. cbn. unfold store_create.
  destruct (s !! key ci) as [old|] eqn:Hk; cbn.
  - split_and!; try done. intros _. eexists. split; [|reflexivity]. reflexivity.
  - split_and!; done.
Qed.

(** C3.  Against a store whose create succeeds when no object of that
    namespace and name is there and reports AlreadyExists when one is,
    and with a manifest factory that returns the default object, running
    the ensure step twice from any store state leaves exactly one object
    under the default's namespace and name; the second run returns nil,
    observes AlreadyExists, and leaves the store as the first run left
    it; an object that was there before is kept as it was and every other
    object is untouched. *)
Theorem ensure_idempotent (f : Faults) (o : Operator (cluster f))
    (sch : option (list string)) (s : Store) (ci : ClusterIngress) :
  create_error f = None ->
  manifestFactory o = Ok ci ->
  result (ensureDefaultClusterIngress o
            (final (ensureDefaultClusterIngress o (@Build_St (cluster f) sch s)))) = None
  /\ size (filter (fun kv => kv.1 = key ci)
             (world (final (ensureDefaultClusterIngress o
                (final (ensureDefaultClusterIngress o (@Build_St (cluster f) sch s)))))
              : Store)) = 1
  /\ world (final (ensureDefaultClusterIngress o
              (final (ensureDefaultClusterIngress o (@Build_St (cluster f) sch s)))))
     = world (final (ensureDefaultClusterIngress o (@Build_St (cluster f) sch s)))
  /\ (exists e,
        IsAlreadyExists e = true
        /\ trace (ensureDefaultClusterIngress o
              (final (ensureDefaultClusterIngress o (@Build_St (cluster f) sch s))))
           = [EvDefaultClusterIngress (manifestFactory o) (Ok ci);
              EvCreate (client o) ci (Some e)])
  /\ (world (final (ensureDefaultClusterIngress o
               (final (ensureDefaultClusterIngress o (@Build_St (cluster f) sch s)))))
       : Store) !! key ci = Some (default ci (s !! key ci))
  /\ (forall k, k ≠ key ci ->
        (world (final (ensureDefaultClusterIngress o
                  (final (ensureDefaultClusterIngress o (@Build_St (cluster f) sch s)))))
          : Store) !! k = s !! k).
Proof.
  intros Hce Hmf.
  destruct (ensure_on_store o sch s Hce Hmf) as (_ & Hw1 & Hs1 & _ & _).
  destruct (final (ensureDefaultClusterIngress o (@Build_St (cluster f) sch s)))
    as [sch1 s1] eqn:Hst1.
  cbn in Hw1, Hs1. subst sch1.
  change (World (cluster f)) with Store in *.
  assert (s1 !! key ci = Some (default ci (s !! key ci))) as Hk1.
  { rewrite Hw1. destruct (s !! key ci) as [old|] eqn:Hk; cbn; [done|].
    apply lookup_insert_eq. }
  assert (forall k, k ≠ key ci -> s1 !! k = s !! k) as Hother.
  { intros k Hne. rewrite Hw1. destruct (s !! key ci); [done|].
    by rewrite lookup_insert_ne. }
  destruct (ensure_on_store o sch s1 Hce Hmf) as (Hr2 & Hw2 & _ & _ & Hobs).
  rewrite Hk1 in Hw2. cbn [world] in *.
  rewrite Hw2. repeat split; try done.
  - erewrite filter_key_singleton by exact Hk1. apply map_size_singleton.
  - apply Hobs. by rewrite Hk1.
Qed.

(** The store has no default object: the ensure step creates it. *)
Example ensure_creates_absent :
  result (ensureDefaultClusterIngress (three_caches no_faults (Ok default_ci))
            (boot no_faults ∅)) = None
  /\ (world (final (ensureDefaultClusterIngress (three_caches no_faults (Ok default_ci))
                      (boot no_faults ∅))) : Store) !! key default_ci
     = Some default_ci.
Proof.
  destruct (ensure_on_store (three_caches no_faults (Ok default_ci))
              (Some ["core/v1"; "apps/v1"]) ∅ eq_refl eq_refl) as (Hr & Hw & _).
  split; [exact Hr|].
  unfold boot. rewrite Hw, lookup_empty. apply lookup_insert_eq.
Qed.

(** The store has a default object that differs from the manifest's: the
    ensure step succeeds and leaves the store as it is. *)
Example ensure_keeps_existing :
  result (ensureDefaultClusterIngress (three_caches no_faults (Ok default_ci))
            (boot no_faults {[key default_ci := scaled_ci]})) = None
  /\ world (final (ensureDefaultClusterIngress (three_caches no_faults (Ok default_ci))
                     (boot no_faults {[key default_ci := scaled_ci]})))
     = ({[key default_ci := scaled_ci]} : Store).
Proof.
  destruct (ensure_on_store (three_caches no_faults (Ok default_ci))
              (Some ["core/v1"; "apps/v1"]) {[key default_ci := scaled_ci]}
              eq_refl eq_refl) as (Hr & Hw & _).
  split; [exact Hr|].
  unfold boot. by rewrite Hw, lookup_singleton_eq.
Qed.

End Idempotent.

(** From an empty store: the first run creates the default, the second
    finds it. *)
Lemma ensure_idempotent_witness :
  create_error no_faults = None
  /\ size (filter (fun kv => kv.1 = key default_ci)
             (world (final (ensureDefaultClusterIngress
                (three_caches no_faults (Ok default_ci))
                (final (ensureDefaultClusterIngress
                   (three_caches no_faults (Ok default_ci)) (boot no_faults ∅)))))
              : Store)) = 1.
Proof.
  split; [reflexivity|].
  exact (proj1 (proj2 (ensure_idempotent
                  (three_caches no_faults (Ok default_ci))
                  (Some ["core/v1"; "apps/v1"]) ∅ eq_refl eq_refl))).
Defined.

(** ** Construction *)

Section Construction.

Context {X : Externals}.

Lemma Client_scheme (kubeConfig : RestConfig X) (st : St X) :
  scheme (final (Client kubeConfig st)) = scheme st.
Proof. unfold_run. unfold final. follow; done. Qed.

Lemma New_scheme config ic dns (kubeConfig : RestConfig X) (st : St X) :
  scheme (final (New config ic dns kubeConfig st)) = scheme st.
Proof. unfold_run. unfold final. follow; done. Qed.

(** C6.  When the REST-mapper discovery fails on a config, Client
    returns a nil client and a non-nil error, and so does New with a nil
    Operator; in both runs the failed discovery is the only call made:
    no client is constructed, and nothing is asked of one. *)
Theorem Client_needs_discovery (kubeConfig : RestConfig X) (st : St X)
    (e : error) (w : World X) :
  apiutil_NewDiscoveryRESTMapper X kubeConfig (world st) = (Err e, w) ->
  (value_of (result (Client kubeConfig st)) = None
   /\ err_of (result (Client kubeConfig st))
      = Some (Errorf "failed to get API Group-Resources")
   /\ trace (Client kubeConfig st) = [EvNewDiscoveryRESTMapper kubeConfig (Err e)])
  /\ (forall config ic dns,
        value_of (result (New config ic dns kubeConfig st)) = None
        /\ err_of (result (New config ic dns kubeConfig st))
           = Some (Errorf "could't create kube client: failed to get API Group-Resources")
        /\ trace (New config ic dns kubeConfig st)
           = [EvNewDiscoveryRESTMapper kubeConfig (Err e)]).
Proof.
  intros Hd. split; [|intros config ic dns];
    unfold_run; unfold result, final, trace; cbn; rewrite Hd; by cbn.
Qed.

Lemma ensure_scheme (o : Operator X) (st : St X) :
  scheme (final (ensureDefaultClusterIngress o st)) = scheme st.
Proof. exact (ensured_scheme (ensure_ensured o st)). Qed.

Lemma Start_scheme (o : Operator X) (st : St X) :
  scheme (final (Start o st)) = scheme st.
Proof.
  rewrite Start_run; cbv zeta.
  destruct (result (ensureDefaultClusterIngress o st)); [apply ensure_scheme|].
  destruct (result (startCaches _ _)) eqn:Hr.
  - unfold final at 1; cbn. by rewrite startCaches_scheme, ensure_scheme.
  - destruct (manager_Start X _ _). unfold final at 1; cbn.
    by rewrite startCaches_scheme, ensure_scheme.
Qed.



End Construction.

(** The API server cannot be reached: no client, and no call beyond the
    discovery. *)
Lemma Client_needs_discovery_witness :
  value_of (result (Client (X:=cluster unreachable) "kubeconfig" (boot unreachable ∅)))
  = None
  /\ err_of (result (Client (X:=cluster unreachable) "kubeconfig" (boot unreachable ∅)))
     = Some (Errorf "failed to get API Group-Resources")
  /\ trace (Client (X:=cluster unreachable) "kubeconfig" (boot unreachable ∅))
     = [EvNewDiscoveryRESTMapper ("kubeconfig" : RestConfig (cluster unreachable))
          (Err (errorString "dial tcp 10.0.0.1:443: connect: connection refused"))].
Proof.
  exact (proj1 (Client_needs_discovery (X:=cluster unreachable) "kubeconfig"
                  (boot unreachable ∅) eq_refl)).
Defined.

(** ** Error messages *)

Section Messages.

Context {X : Externals}.

Lemma prefix_refl (s : string) : String.prefix s s = true.
Proof.
  induction s as [|a s IH]; [done|]. cbn.
  by destruct (Ascii.ascii_dec a a).
Qed.

Lemma append_assoc (a b c : string) : (a +:+ b) +:+ c = a +:+ (b +:+ c).
Proof.
  induction a as [|x a IH]; [done|].
  change (String x ((a +:+ b) +:+ c) = String x (a +:+ (b +:+ c))). by rewrite IH.
Qed.

Lemma contains_refl (s : string) : contains s s = true.
Proof. destruct s; cbn [contains]; by rewrite prefix_refl. Qed.

(** A message that ends with [s] contains [s]. *)
Lemma contains_append (p s : string) : contains (p +:+ s) s = true.
Proof.
  induction p as [|a p IH]; [apply contains_refl|].
  change (String a p +:+ s) with (String a (p +:+ s)).
  cbn [contains]. rewrite IH. apply orb_true_r.
Qed.

Lemma cause_synced (cs : list (Cache X)) (ev : Event X) :
  ev ∈ flat_map synced_round cs -> cause ev = None.
Proof.
  induction cs as [|c cs IH]; cbn; intros H; [by apply elem_of_nil in H|].
  repeat (apply elem_of_cons in H as [->|H]; [done|]). by apply IH.
Qed.

Lemma cause_failed_round (c : Cache X) (ev : Event X) :
  ev ∈ failed_round c -> cause ev = None.
Proof. intros H. unfold failed_round in H. pick_event H; done. Qed.

(** The event of a run of the ensure step that has a cause, if any, is
    the one whose error the step returns. *)
Lemma ensured_cause (o : Operator X) (st : St X) e st' t (ev : Event X) c :
  ensured o st e st' t -> ev ∈ t -> cause ev = Some c -> e = Some c.
Proof.
  destruct 1 as [e w Hf|ci w1 w2 Hf Hc|ci w1 w2 e Hf Hc Hae|ci w1 w2 e Hf Hc Hae];
    intros Hev Hcause; pick_event Hev; cbn in Hcause; try done.
  - by rewrite Hae in Hcause.
  - rewrite Hae in Hcause. congruence.
Qed.

Lemma Start_wait_false (o : Operator X) (st : St X) c :
  (c, false) ∈ waits (trace (Start o st)) ->
  result (Start o st) = Some (Errorf "failed to sync cache").
Proof.
  intros Hc.
  destruct (ensured_quiet (ensure_ensured o st)) as (_ & Hw & _ & _).
  destruct (result (ensureDefaultClusterIngress o st)) as [err|] eqn:He.
  { destruct (Start_ensure_failed o st He) as [_ Ht].
    rewrite Ht, Hw in Hc. by apply elem_of_nil in Hc. }
  destruct (Start_after_ensure o st He)
    as [(e & _ & Ht)|(pre & c' & post & _ & Hres & _)]; [|done].
  rewrite Ht, !waits_app, Hw, waits_synced in Hc. cbn in Hc.
  rewrite app_nil_r in Hc. by apply list_elem_of_fmap in Hc as (? & ? & _).
Qed.

(** C5, as amended.  Leaving aside the two places where a failed
    REST-mapper discovery is reported, every failure of New, Client or
    Start that has an error behind it returns a message that ends with
    the text of that error: behind the context of the step that failed
    (for New, behind the context Client added as well), and with no
    context for an error of manager.Start, which Start returns as it is.
    A cache that does not sync has no error behind it and gives the
    fixed message "failed to sync cache". *)
Theorem startup_errors_wrap_their_cause :
  (forall kubeConfig (st : St X) (ev : Event X) c,
      ev ∈ trace (Client kubeConfig st) -> cause ev = Some c ->
      exists e, result (Client kubeConfig st) = Err e
                /\ Error e = Client_context ev +:+ Error c
                /\ contains (Error e) (Error c) = true)
  /\ (forall config ic dns kubeConfig (st : St X) (ev : Event X) c,
        ev ∈ trace (New config ic dns kubeConfig st) -> cause ev = Some c ->
        exists e, result (New config ic dns kubeConfig st) = Err e
                  /\ Error e = New_context ev +:+ Error c
                  /\ contains (Error e) (Error c) = true)
  /\ (forall o (st : St X) (ev : Event X) c,
        ev ∈ trace (Start o st) -> cause ev = Some c ->
        exists e, result (Start o st) = Some e
                  /\ Error e = Start_context ev +:+ Error c
                  /\ contains (Error e) (Error c) = true)
  /\ (forall o (st : St X) c,
        (c, false) ∈ waits (trace (Start o st)) ->
        result (Start o st) = Some (Errorf "failed to sync cache")).
Proof.
  assert (forall (e : error) ctx c,
             Error e = ctx +:+ Error c ->
             Error e = ctx +:+ Error c /\ contains (Error e) (Error c) = true) as Hends.
  { intros e ctx c H. split; [done|]. rewrite H. apply contains_append. }
  split_and!.
  - intros kubeConfig st ev c. unfold_run; unfold result, final, trace.
    follow; intros Hev Hc; pick_event Hev; cbn in Hc; simplify_eq.
    eexists; split; [reflexivity|]. apply Hends. reflexivity.
  - intros config ic dns kubeConfig st ev c. unfold_run; unfold result, final, trace.
    follow; intros Hev Hc; pick_event Hev; cbn in Hc; simplify_eq;
      (eexists; split; [reflexivity|]; apply Hends;
       cbn [Error Errorf New_context]; by rewrite ?append_assoc).
  - intros o st ev c Hev Hc.
    pose proof (ensure_ensured o st) as Hens.
    destruct (result (ensureDefaultClusterIngress o st)) as [err|] eqn:He.
    + destruct (Start_ensure_failed o st He) as [Hr Ht]. rewrite Ht in Hev.
      pose proof (ensured_cause Hens Hev Hc) as [= ->].
      assert (Start_context ev = "failed to ensure default cluster ingress: ") as Hctx.
      { inversion Hens; subst;
          match goal with H : _ = trace _ |- _ => rewrite <- H in Hev end;
          pick_event Hev; done. }
      eexists; split; [exact Hr|]. apply Hends. by rewrite Hctx.
    + destruct (Start_after_ensure o st He)
        as [(e & Hr & Ht)|(pre & c' & post & _ & _ & Ht)]; rewrite Ht in Hev.
      * apply elem_of_app in Hev as [Hev|Hev];
          [by pose proof (ensured_cause Hens Hev Hc)|].
        apply elem_of_app in Hev as [Hev|Hev];
          [by rewrite (cause_synced _ Hev) in Hc|].
        pick_event Hev. destruct e as [c0|]; cbn in Hc; [|done].
        injection Hc as ->. exists c. split; [exact Hr|]. by apply Hends.
      * apply elem_of_app in Hev as [Hev|Hev];
          [by pose proof (ensured_cause Hens Hev Hc)|].
        apply elem_of_app in Hev as [Hev|Hev];
          [by rewrite (cause_synced _ Hev) in Hc|].
        by rewrite (cause_failed_round Hev) in Hc.
  - apply Start_wait_false.
Qed.

End Messages.

(** The discovery fails with a connection error, and what Client returns
    does not mention it; manager.Start fails, and Start returns its error
    with no context in front. *)
Lemma startup_errors_counterexample :
  trace (Client (X:=cluster unreachable) "kubeconfig" (boot unreachable ∅))
  = [EvNewDiscoveryRESTMapper ("kubeconfig" : RestConfig (cluster unreachable))
       (Err (errorString "dial tcp 10.0.0.1:443: connect: connection refused"))]
  /\ result (Client (X:=cluster unreachable) "kubeconfig" (boot unreachable ∅))
     = Err (Errorf "failed to get API Group-Resources")
  /\ contains (Error (Errorf "failed to get API Group-Resources"))
       (Error (errorString "dial tcp 10.0.0.1:443: connect: connection refused"))
     = false
  /\ last (trace (Start (three_caches dispatch_fails (Ok default_ci))
                        (boot dispatch_fails ∅)))
     = Some (EvManagerStart ("mgr" : Manager (cluster dispatch_fails))
               (Some (errorString "leader election lost")))
  /\ result (Start (three_caches dispatch_fails (Ok default_ci)) (boot dispatch_fails ∅))
     = Some (errorString "leader election lost").
Proof. repeat split; reflexivity. Qed.

(** ** Runs of New *)

Section New_runs.

Context {X : Externals}.

Lemma New_constructed (config : OperatorConfig X) (ic : InstallConfig X)
    (dns : DNSManager X) (kubeConfig : RestConfig X) (st : St X) :
  constructed config ic kubeConfig st
    (result (New config ic dns kubeConfig st)) (trace (New config ic dns kubeConfig st)).
Proof.
  unfold_run; unfold result, final, trace; follow; by econstructor.
Qed.

End New_runs.

(** ** More on Start *)

Section Start_more.

Context {X : Externals}.

Lemma dispatches_app (t1 t2 : list (Event X)) :
  dispatches (t1 ++ t2) = dispatches t1 ++ dispatches t2.
Proof. apply omap_app. Qed.

Lemma dispatches_synced (cs : list (Cache X)) :
  dispatches (flat_map synced_round cs) = [].
Proof. by induction cs. Qed.

Lemma ensured_no_dispatch (o : Operator X) (st : St X) e st' t :
  ensured o st e st' t -> dispatches t = [].
Proof. by destruct 1. Qed.

(** X1.  Start calls manager.Start exactly when the ensure step returned
    nil and every cache of the list answered its wait with true.  It calls
    it at most once, on the operator's manager, as the last thing it does,
    and returns what that call returned; in particular Start returns nil
    only after manager.Start has run and returned nil. *)
Theorem Start_dispatches_iff_synced (o : Operator X) (st : St X) :
  (dispatched (trace (Start o st)) = true <->
     result (ensureDefaultClusterIngress o st) = None
     /\ waits (trace (Start o st)) = (fun c => (c, true)) <$> caches o)
  /\ (dispatches (trace (Start o st)) = []
      \/ exists r, dispatches (trace (Start o st)) = [(manager o, r)]
                   /\ last (trace (Start o st)) = Some (EvManagerStart (manager o) r)
                   /\ result (Start o st) = r)
  /\ (result (Start o st) = None -> dispatched (trace (Start o st)) = true).
Proof.
  pose proof (ensure_ensured o st) as Hens.
  destruct (ensured_quiet Hens) as (_ & Hw & Hd & _).
  pose proof (ensured_no_dispatch Hens) as Hds.
  destruct (result (ensureDefaultClusterIngress o st)) as [err|] eqn:He.
  - destruct (Start_ensure_failed o st He) as [-> ->].
    rewrite Hd, Hds. split_and!; [split; [done|by intros [? _]]|by left|done].
  - destruct (Start_after_ensure o st He)
      as [(e & Hr & ->)|(pre & c & post & Hcs & -> & ->)].
    + rewrite !waits_app, !dispatched_app, !dispatches_app, Hw, Hd, Hds,
        waits_synced, dispatched_synced, dispatches_synced. cbn.
      rewrite app_nil_r. split_and!.
      * done.
      * right. exists e. split_and!; [done| |done].
        rewrite app_assoc. apply last_snoc.
      * done.
    + rewrite !waits_app, !dispatched_app, !dispatches_app, Hw, Hd, Hds,
        waits_synced, dispatched_synced, dispatches_synced. cbn.
      split_and!; [|by left|done].
      split; [done|]. intros [_ Hall]. exfalso.
      apply (f_equal (fun l => l !! length pre)) in Hall.
      rewrite lookup_app_r in Hall by by rewrite length_fmap.
      rewrite length_fmap, Nat.sub_diag, Hcs, list_lookup_fmap,
        list_lookup_middle in Hall by done.
      done.
Qed.

End Start_more.

(** ** Building and running are apart *)

Section Apart.

Context {X : Externals}.

Lemma construction_synced (cs : list (Cache X)) :
  existsb is_construction (flat_map synced_round cs) = false.
Proof. by induction cs. Qed.

Lemma ensured_no_construction (o : Operator X) (st : St X) e st' t :
  ensured o st e st' t -> existsb is_construction t = false.
Proof. by destruct 1. Qed.

(** X2.  Building and running do not mix.  Client and New make no
    start-up call: they do not ask for the default ClusterIngress, write
    nothing to the store, launch or wait on no cache and never call
    manager.Start.  The ensure step and Start make no construction call:
    no discovery, no constructor, no informer request, no Watch. *)
Theorem building_and_running_apart :
  (forall kubeConfig (st : St X),
      existsb is_startup (trace (Client kubeConfig st)) = false)
  /\ (forall config ic dns kubeConfig (st : St X),
        existsb is_startup (trace (New config ic dns kubeConfig st)) = false)
  /\ (forall o (st : St X),
        existsb is_construction (trace (ensureDefaultClusterIngress o st)) = false)
  /\ (forall o (st : St X), existsb is_construction (trace (Start o st)) = false).
Proof.
  split_and!.
  - intros kubeConfig st. unfold_run; unfold trace; follow; done.
  - intros config ic dns kubeConfig st.
    by destruct (New_constructed config ic dns kubeConfig st).
  - intros o st. exact (ensured_no_construction (ensure_ensured o st)).
  - intros o st.
    pose proof (ensured_no_construction (ensure_ensured o st)) as Hc.
    destruct (result (ensureDefaultClusterIngress o st)) as [err|] eqn:He.
    + by destruct (Start_ensure_failed o st He) as [_ ->].
    + destruct (Start_after_ensure o st He)
        as [(e & _ & ->)|(pre & c & post & _ & _ & ->)];
        by rewrite !existsb_app, Hc, construction_synced.
Qed.

End Apart.

(** ** More on New *)

Section New_more.

Context {X : Externals}.

(** X3.  When New succeeds it has made exactly ten calls, in this order:
    discovery, client.New, manager.New, the operator controller, a second
    discovery, cache.New, and for Deployment and then Service an informer
    request followed by a Watch of that informer.  The client and the
    manager the Operator holds are the ones client.New and manager.New
    returned, the controller was created on that manager with that client,
    client.New got the mapper of the first discovery and cache.New the
    mapper of the second, all three constructors got the package scheme,
    and the factory and install config are the ones made from, or passed
    as, the arguments. *)
Theorem New_wires_operator (config : OperatorConfig X) (ic : InstallConfig X)
    (dns : DNSManager X) (kubeConfig : RestConfig X) (st : St X) (op : Operator X) :
  result (New config ic dns kubeConfig st) = Ok op ->
  manifestFactory op = manifests_NewFactory X config
  /\ installConfig op = ic
  /\ exists m1 ctl m2 c i1 r1 i2 r2,
      caches op = [c]
      /\ trace (New config ic dns kubeConfig st)
         = [EvNewDiscoveryRESTMapper kubeConfig (Ok m1);
            EvClientNew kubeConfig (scheme st) m1 (Ok (client op));
            EvManagerNew kubeConfig (config_Namespace X config) (scheme st)
              (Ok (manager op));
            EvControllerNew (manager op) (client op) (config_Namespace X config) (Ok ctl);
            EvNewDiscoveryRESTMapper kubeConfig (Ok m2);
            EvCacheNew kubeConfig "openshift-ingress" (scheme st) m2 (Ok c);
            EvGetInformer c AppsV1Deployment (Ok i1);
            EvWatch ctl i1 EnqueueRequestForObject r1;
            EvGetInformer c CoreV1Service (Ok i2);
            EvWatch ctl i2 EnqueueRequestForObject r2].
Proof.
  intros Hok.
  destruct (New_constructed config ic dns kubeConfig st); try done.
  injection Hok as <-. cbn. split_and!; [done..|]. by repeat eexists.
Qed.

(** X4.  New does not undo what it has done.  When the informer request
    for Service fails, the Deployment informer has already been obtained
    and handed to Watch, that Watch is the only one issued, the failed
    request is the last call, and New returns the message "failed to
    create informer for <Service object>: <error>". *)
Theorem New_fails_after_first_watch (config : OperatorConfig X) (ic : InstallConfig X)
    (dns : DNSManager X) (kubeConfig : RestConfig X) (st : St X)
    (c : Cache X) (e : error) :
  EvGetInformer c CoreV1Service (Err e) ∈ trace (New config ic dns kubeConfig st) ->
  result (New config ic dns kubeConfig st)
  = Err (Errorf ("failed to create informer for " +:+ fmt_v X CoreV1Service
                   +:+ ": " +:+ Error e))
  /\ last (trace (New config ic dns kubeConfig st))
     = Some (EvGetInformer c CoreV1Service (Err e))
  /\ exists ctl i1 r1,
      watches (trace (New config ic dns kubeConfig st)) = [(ctl, i1)]
      /\ EvGetInformer c AppsV1Deployment (Ok i1) ∈ trace (New config ic dns kubeConfig st)
      /\ EvWatch ctl i1 EnqueueRequestForObject r1
           ∈ trace (New config ic dns kubeConfig st).
Proof.
  intros Hev.
  destruct (New_constructed config ic dns kubeConfig st);
    find_event Hev.
  split_and!; [reflexivity..|]. do 3 eexists. split_and!; [reflexivity|..];
    apply list_elem_of_In; cbn; auto 20.
Qed.

(** X5.  What Watch returns does not reach New's result: a run whose last
    call is a Watch, whatever that call returned, is a run in which both
    Watch calls were issued and New returned an Operator. *)
Theorem New_drops_Watch_error (config : OperatorConfig X) (ic : InstallConfig X)
    (dns : DNSManager X) (kubeConfig : RestConfig X) (st : St X)
    (ctl : Controller X) (i : Informer X) (h : EventHandler) (r : option error) :
  last (trace (New config ic dns kubeConfig st)) = Some (EvWatch ctl i h r) ->
  exists op, result (New config ic dns kubeConfig st) = Ok op
             /\ length (watches (trace (New config ic dns kubeConfig st))) = 2.
Proof.
  intros Hl.
  destruct (New_constructed config ic dns kubeConfig st); cbn in Hl; try done.
  by eexists.
Qed.

(** X6.  A failed discovery in a run of New is either the very first
    call, and then New returns "could't create kube client: failed to get
    API Group-Resources"; or it is the second discovery, made after the
    client, the manager and the controller were constructed, and then New
    returns the bare "failed to get API Group-Resources". *)
Theorem New_discovery_failures (config : OperatorConfig X) (ic : InstallConfig X)
    (dns : DNSManager X) (kubeConfig : RestConfig X) (st : St X) (e : error) :
  EvNewDiscoveryRESTMapper kubeConfig (Err e) ∈ trace (New config ic dns kubeConfig st) ->
  (trace (New config ic dns kubeConfig st) = [EvNewDiscoveryRESTMapper kubeConfig (Err e)]
   /\ result (New config ic dns kubeConfig st)
      = Err (Errorf "could't create kube client: failed to get API Group-Resources"))
  \/ (exists m1 kc mgr ctl,
        trace (New config ic dns kubeConfig st)
        = [EvNewDiscoveryRESTMapper kubeConfig (Ok m1);
           EvClientNew kubeConfig (scheme st) m1 (Ok kc);
           EvManagerNew kubeConfig (config_Namespace X config) (scheme st) (Ok mgr);
           EvControllerNew mgr kc (config_Namespace X config) (Ok ctl);
           EvNewDiscoveryRESTMapper kubeConfig (Err e)]
        /\ result (New config ic dns kubeConfig st)
           = Err (Errorf "failed to get API Group-Resources")).
Proof.
  intros Hev.
  destruct (New_constructed config ic dns kubeConfig st);
    find_event Hev.
  - by left.
  - right. by repeat eexists.
Qed.

(** X7.  The errors that Client and New return, and the error Start
    returns when the ensure step fails, are plain messages: whatever API
    status reason the causing error carried is gone, so IsAlreadyExists
    (like any test on the reason) is false on them.  Only the text of the
    cause survives, behind the prefix. *)
Theorem wrapped_errors_are_plain :
  (forall kubeConfig (st : St X) e,
      result (Client kubeConfig st) = Err e ->
      ReasonForError e = StatusReasonUnknown /\ IsAlreadyExists e = false)
  /\ (forall config ic dns kubeConfig (st : St X) e,
        result (New config ic dns kubeConfig st) = Err e ->
        ReasonForError e = StatusReasonUnknown /\ IsAlreadyExists e = false)
  /\ (forall o (st : St X) err,
        result (ensureDefaultClusterIngress o st) = Some err ->
        exists e, result (Start o st) = Some e
                  /\ ReasonForError e = StatusReasonUnknown
                  /\ IsAlreadyExists e = false
                  /\ Error e = "failed to ensure default cluster ingress: " +:+ Error err).
Proof.
  split_and!.
  - intros kubeConfig st e. unfold_run; unfold result; follow; by intros [= <-].
  - intros config ic dns kubeConfig st e He.
    destruct (New_constructed config ic dns kubeConfig st); by simplify_eq.
  - intros o st err He. destruct (Start_ensure_failed o st He) as [-> _].
    by eexists.
Qed.

End New_more.

Section Ensure_more.

Context {X : Externals}.

(** X8.  The ensure step writes a log line exactly when its Create
    returned nil: the lines logged are "created default clusteringress
    <namespace>/<name>" for the objects created, of which there is at most
    one; an AlreadyExists answer is silent.  And when an object was
    created the step returns nil. *)
Theorem creation_logged_iff_created (o : Operator X) (st : St X) :
  logged (trace (ensureDefaultClusterIngress o st))
  = (fun ci => "created default clusteringress " +:+ ci_Namespace ci
                 +:+ "/" +:+ ci_Name ci)
      <$> created (trace (ensureDefaultClusterIngress o st))
  /\ length (created (trace (ensureDefaultClusterIngress o st))) <= 1
  /\ (created (trace (ensureDefaultClusterIngress o st)) = []
      \/ result (ensureDefaultClusterIngress o st) = None).
Proof.
  destruct (ensure_ensured o st); cbn; split_and!; auto.
Qed.

(** X9.  Start on an Operator that New returned touches one cache only,
    the one New constructed for "openshift-ingress".  Either the ensure
    step fails and no cache is launched; or that cache is launched and
    waited on once and syncs, and manager.Start is called on the
    Operator's manager, whose answer Start returns; or that cache is
    launched and waited on once, does not sync, and Start returns "failed
    to sync cache" without calling manager.Start. *)
Theorem Start_of_New (config : OperatorConfig X) (ic : InstallConfig X)
    (dns : DNSManager X) (kubeConfig : RestConfig X) (st st' : St X) (op : Operator X) :
  result (New config ic dns kubeConfig st) = Ok op ->
  exists c,
    caches_made (trace (New config ic dns kubeConfig st)) = [("openshift-ingress", Ok c)]
    /\ ((exists err,
           result (ensureDefaultClusterIngress op st') = Some err
           /\ started (trace (Start op st')) = []
           /\ waits (trace (Start op st')) = []
           /\ dispatches (trace (Start op st')) = [])
        \/ (result (ensureDefaultClusterIngress op st') = None
            /\ started (trace (Start op st')) = [c]
            /\ waits (trace (Start op st')) = [(c, true)]
            /\ exists r, dispatches (trace (Start op st')) = [(manager op, r)]
                         /\ result (Start op st') = r)
        \/ (result (ensureDefaultClusterIngress op st') = None
            /\ started (trace (Start op st')) = [c]
            /\ waits (trace (Start op st')) = [(c, false)]
            /\ dispatches (trace (Start op st')) = []
            /\ result (Start op st') = Some (Errorf "failed to sync cache"))).
Proof.
  intros Hok.
  assert (exists c, caches op = [c]
            /\ caches_made (trace (New config ic dns kubeConfig st))
               = [("openshift-ingress", Ok c)]) as (c & Hcs & Hmade).
  { destruct (New_constructed config ic dns kubeConfig st); try done.
    injection Hok as <-. by eexists. }
  exists c. split; [done|].
  pose proof (ensure_ensured op st') as Hens.
  destruct (ensured_quiet Hens) as (Hs & Hw & _ & _).
  pose proof (ensured_no_dispatch Hens) as Hds.
  destruct (result (ensureDefaultClusterIngress op st')) as [err|] eqn:He.
  - left. exists err. destruct (Start_ensure_failed op st' He) as [_ ->]. done.
  - right. destruct (Start_after_ensure op st' He)
      as [(e & Hr & ->)|(pre & c' & post & Hpre & Hr & ->)].
    + left. rewrite Hcs. cbn [flat_map].
      rewrite !started_app, !waits_app, !dispatches_app, Hs, Hw, Hds. cbn.
      split_and!; [done..|]. by exists e.
    + right. rewrite Hcs in Hpre.
      destruct pre as [|c0 pre]; [|by destruct pre].
      injection Hpre as -> <-.
      rewrite !started_app, !waits_app, !dispatches_app, Hs, Hw, Hds. by cbn.
Qed.

End Ensure_more.

(** A cluster with no faults: New succeeds. *)
Lemma New_wires_operator_witness :
  exists op,
    result (New (X:=cluster no_faults) "openshift-ingress-operator" tt tt "kubeconfig"
              (boot no_faults ∅)) = Ok op
    /\ manifestFactory op = manifests_NewFactory (cluster no_faults)
                              "openshift-ingress-operator".
Proof.
  eexists. split; [reflexivity|].
  exact (proj1 (New_wires_operator (X:=cluster no_faults) "openshift-ingress-operator"
                  tt tt "kubeconfig" (boot no_faults ∅) eq_refl)).
Defined.

(** No informer for Service: New fails after the Deployment watch. *)
Lemma New_fails_after_first_watch_witness :
  EvGetInformer ("openshift-ingress" : Cache (cluster no_service_informer)) CoreV1Service
    (Err (errorString "no matches for kind Service in version v1"))
    ∈ trace (New (X:=cluster no_service_informer) "openshift-ingress-operator" tt tt
               "kubeconfig" (boot no_service_informer ∅))
  /\ result (New (X:=cluster no_service_informer) "openshift-ingress-operator" tt tt
               "kubeconfig" (boot no_service_informer ∅))
     = Err (Errorf ("failed to create informer for &Service{}: "
                      +:+ "no matches for kind Service in version v1")).
Proof.
  assert (EvGetInformer ("openshift-ingress" : Cache (cluster no_service_informer))
            CoreV1Service (Err (errorString "no matches for kind Service in version v1"))
            ∈ trace (New (X:=cluster no_service_informer) "openshift-ingress-operator"
                       tt tt "kubeconfig" (boot no_service_informer ∅))) as H.
  { apply list_elem_of_lookup. exists 8. reflexivity. }
  split; [exact H|].
  exact (proj1 (New_fails_after_first_watch (X:=cluster no_service_informer)
                  "openshift-ingress-operator" tt tt "kubeconfig"
                  (boot no_service_informer ∅) H)).
Defined.

(** Both Watch calls return an error, and New returns an Operator. *)
Lemma New_drops_Watch_error_witness :
  last (trace (New (X:=cluster watch_fails) "openshift-ingress-operator" tt tt
                 "kubeconfig" (boot watch_fails ∅)))
  = Some (EvWatch ("openshift-ingress-operator" : Controller (cluster watch_fails))
            (("openshift-ingress", CoreV1Service) : Informer (cluster watch_fails))
            EnqueueRequestForObject
            (Some (errorString "must specify Informer.Informer")))
  /\ exists op,
      result (New (X:=cluster watch_fails) "openshift-ingress-operator" tt tt
                "kubeconfig" (boot watch_fails ∅)) = Ok op
      /\ length (watches (trace (New (X:=cluster watch_fails)
                                   "openshift-ingress-operator" tt tt
                                   "kubeconfig" (boot watch_fails ∅)))) = 2.
Proof.
  split; [reflexivity|].
  exact (New_drops_Watch_error (X:=cluster watch_fails) "openshift-ingress-operator"
           tt tt "kubeconfig" (boot watch_fails ∅) eq_refl).
Defined.

(** The first discovery succeeds and the second fails. *)
Lemma New_discovery_failures_witness :
  EvNewDiscoveryRESTMapper ("kubeconfig" : RestConfig (counting 1))
    (Err (errorString "the server is currently unable to handle the request"))
    ∈ trace (New (X:=counting 1) "openshift-ingress-operator" tt tt "kubeconfig"
               (@Build_St (counting 1) None 0))
  /\ result (New (X:=counting 1) "openshift-ingress-operator" tt tt "kubeconfig"
               (@Build_St (counting 1) None 0))
     = Err (Errorf "failed to get API Group-Resources").
Proof.
  assert (EvNewDiscoveryRESTMapper ("kubeconfig" : RestConfig (counting 1))
            (Err (errorString "the server is currently unable to handle the request"))
            ∈ trace (New (X:=counting 1) "openshift-ingress-operator" tt tt "kubeconfig"
                       (@Build_St (counting 1) None 0))) as H.
  { apply list_elem_of_lookup. exists 4. reflexivity. }
  split; [exact H|].
  destruct (@New_discovery_failures (counting 1) "openshift-ingress-operator" tt tt
              "kubeconfig" (@Build_St (counting 1) None 0) _ H)
    as [[_ Hr]|(m1 & kc & mgr & ctl & _ & Hr)]; [discriminate Hr|exact Hr].
Defined.

(** New, then Start, on a cluster with no faults. *)
Lemma Start_of_New_witness :
  exists op c,
    result (New (X:=cluster no_faults) "openshift-ingress-operator" tt tt "kubeconfig"
              (boot no_faults ∅)) = Ok op
    /\ caches_made (trace (New (X:=cluster no_faults) "openshift-ingress-operator" tt tt
                             "kubeconfig" (boot no_faults ∅)))
       = [("openshift-ingress", Ok c)]
    /\ started (trace (Start op (boot no_faults ∅))) = [c].
Proof.
  eexists.
  destruct (Start_of_New (X:=cluster no_faults) "openshift-ingress-operator" tt tt
              "kubeconfig" (boot no_faults ∅) (boot no_faults ∅) eq_refl)
    as (c & Hmade & _).
  exists c. split; [reflexivity|]. split; [exact Hmade|].
  injection Hmade as <-. reflexivity.
Defined.

Section Prefix.

Context {X : Externals}.

(** X10.  In every run of Start the caches launched are a prefix of the
    operator's list, in its order and with its repetitions; the caches
    waited on are exactly the caches launched, in the same order; and only
    the last wait of a run can have answered false. *)
Theorem Start_launches_prefix (o : Operator X) (st : St X) :
  started (trace (Start o st)) `prefix_of` caches o
  /\ (fst <$> waits (trace (Start o st))) = started (trace (Start o st))
  /\ (forall i c b,
        waits (trace (Start o st)) !! i = Some (c, b) ->
        S i < length (waits (trace (Start o st))) -> b = true).
Proof.
  pose proof (ensure_ensured o st) as Hens.
  destruct (ensured_quiet Hens) as (Hs & Hw & _ & _).
  destruct (result (ensureDefaultClusterIngress o st)) as [err|] eqn:He.
  { destruct (Start_ensure_failed o st He) as [_ ->]. rewrite Hs, Hw.
    split_and!; [apply prefix_nil|done|done]. }
  destruct (Start_after_ensure o st He)
    as [(e & _ & ->)|(pre & c' & post & Hcs & _ & ->)];
    rewrite !started_app, !waits_app, Hs, Hw, started_synced, waits_synced; cbn.
  - rewrite !app_nil_r. split_and!.
    + done.
    + rewrite <- list_fmap_compose. apply list_fmap_id.
    + intros i c b Hi _. by apply synced_waits_true in Hi as [? _].
  - split_and!.
    + rewrite Hcs. exists post. by rewrite <- app_assoc.
    + rewrite fmap_app, <- list_fmap_compose. cbn. by rewrite list_fmap_id.
    + intros i c b Hi Hlt. rewrite length_app, length_fmap in Hlt. cbn in Hlt.
      rewrite lookup_app_l in Hi by (rewrite length_fmap; lia).
      by apply synced_waits_true in Hi as [? _].
Qed.

End Prefix.

(** Create fails with an internal error: the ensure step returns it with
    its reason, and what Start returns has none. *)
Lemma wrapped_errors_are_plain_witness :
  ReasonForError <$> result (ensureDefaultClusterIngress
                               (three_caches refused (Ok default_ci)) (boot refused ∅))
  = Some StatusReasonInternalError
  /\ exists e,
      result (Start (three_caches refused (Ok default_ci)) (boot refused ∅)) = Some e
      /\ ReasonForError e = StatusReasonUnknown.
Proof.
  split; [reflexivity|].
  destruct (proj2 (proj2 (@wrapped_errors_are_plain (cluster refused)))
              (three_caches refused (Ok default_ci)) (boot refused ∅) _ eq_refl)
    as (e & Hr & Hreason & _).
  exists e. split; [exact Hr|exact Hreason].
Defined.
